(** * The file manager widget: Dropzone, FileManager and the registry

    A shallow embedding of the React file manager component
    ([Dropzone], [FileType], [FileManager], [FinalFileManager]) and of the
    modules it imports ([./reducer], [./selectors], [./util]).

    Strings are JavaScript strings read as sequences of code units, one
    [ascii] per unit.  The [uploads] object of the registry is a finite map.
    Side effects (requests to the server, dispatched actions, the outward
    [onChange] call) are recorded in order in a list of [Effect]s. *)

From Stdlib Require Import ZArith Lia Bool Ascii String List.
From stdpp Require Import gmap strings list.
Import ListNotations.

Local Open Scope string_scope.
Local Open Scope Z_scope.
Local Open Scope list_scope.

(** ** JavaScript string primitives used by the widget *)

Module JS.

(** [s.indexOf(c)] for a one-unit needle [c], counting from [i]: the index
    of the first occurrence, [-1] when there is none. *)
Fixpoint indexOfFrom (c : ascii) (s : string) (i : Z) : Z :=
  match s with
  | EmptyString => -1
  | String a r => if Ascii.eqb a c then i else indexOfFrom c r (i + 1)
  end.

Definition indexOf (s : string) (c : ascii) : Z := indexOfFrom c s 0.

(** Clamping of a relative index as [String.prototype.slice] does it:
    a negative index counts from the end, everything is cut to [0..len]. *)
Definition clampIndex (len k : Z) : Z :=
  if k <? 0 then Z.max (len + k) 0 else Z.min k len.

(** [s.slice(b, e)]. *)
Definition slice (s : string) (b e : Z) : string :=
  let len := Z.of_nat (String.length s) in
  let from := clampIndex len b in
  let to := clampIndex len e in
  let span := Z.max (to - from) 0 in
  substring (Z.to_nat from) (Z.to_nat span) s.

(** JavaScript truthiness of a value that is a string or [null]. *)
Definition truthy (v : option string) : bool :=
  match v with
  | None => false
  | Some s => negb (String.eqb s "")
  end.

(** Does the unit [c] occur in [s]? *)
Fixpoint occurs (c : ascii) (s : string) : bool :=
  match s with
  | EmptyString => false
  | String a r => if Ascii.eqb a c then true else occurs c r
  end.

(** [s] without its last unit (the empty string stays empty). *)
Fixpoint dropLast (s : string) : string :=
  match s with
  | EmptyString => EmptyString
  | String a EmptyString => EmptyString
  | String a r => String a (dropLast r)
  end.

End JS.

(** ** Data model *)

(** A file of a file type, as the component reads it: [uuid], [filename]
    and [state].  [state] is a string or absent ([None]); the component
    compares it with ['added'] and ['modified'] only. *)
Record File := mkFile {
  uuid : string;
  filename : string;
  state : option string;
}.

(** A file type (category), the [fileType] prop of [Dropzone]/[FileType]. *)
Record FileType := mkFileType {
  id : nat;
  name : string;
  allowMultipleFiles : bool;
  files : list File;
  extensions : list string;
  filenameTemplate : option string;
  invalidFiles : list string;
}.

(** A file object coming from a drop or from the file picker: its [name]
    and the identity of the browser object. *)
Record DroppedFile := mkDropped {
  fname : string;
  handle : nat;
}.

(** An upload in flight: the file and its progress. *)
Record Upload := mkUpload {
  file : DroppedFile;
  progress : nat;
}.

(** The state kept by [useReducer] in [FileManager]. *)
Record State := mkState {
  fileTypes : list FileType;
  uploads : gmap nat Upload;
  isDirty : bool;
}.

Definition stateIs (s : string) (f : File) : bool :=
  match state f with
  | Some t => String.eqb t s
  | None => false
  end.

Definition setFiles (ft : FileType) (fs : list File) : FileType :=
  mkFileType (id ft) (name ft) (allowMultipleFiles ft) fs (extensions ft)
             (filenameTemplate ft) (invalidFiles ft).

Definition setInvalidFiles (ft : FileType) (names : list string) : FileType :=
  mkFileType (id ft) (name ft) (allowMultipleFiles ft) (files ft) (extensions ft)
             (filenameTemplate ft) names.

(** ** Filename templates ([getFilesFromEvent] of [Dropzone]) *)

(** The part of a file name that is tested against the template:
    [file.name.slice(0, file.name.indexOf('.'))]. *)
Definition templateStem (fileName : string) : string :=
  JS.slice fileName 0 (JS.indexOf fileName ".").


(** ** Actions ([./actions]) *)

(** Modelled from the spec: the module [./actions] is not part of the
    sources at hand.  The component names [reset], [clearDirty],
    [invalidTemplate], [markUploaded] and [markModified]; section 4.3 gives
    their arguments and adds progress updates and removals, section 4.2 the
    failure event, section 3 the creation of an upload on drop-accept. *)
Inductive Action :=
| Reset (initial : list FileType)
| ClearDirty
| InvalidTemplate (fileTypeId : nat) (fileName : string)
| StartUpload (fileTypeId : nat) (f : DroppedFile)
| Progress (fileTypeId : nat) (percent : nat)
| UploadFailed (fileTypeId : nat)
| MarkUploaded (fileTypeId : nat) (newUuid newName : string)
| MarkModified (fileTypeId : nat) (newUuid newName : string) (replaced : option string)
| Removed (fileTypeId : nat) (oldUuid : string).

(** The two action creators [Dropzone] hands to the coordinator. *)
Inductive MarkCreator := markUploaded | markModified.

Definition mark (c : MarkCreator) (fileTypeId : nat) (u fn : string)
    (replaced : option string) : Action :=
  match c with
  | markUploaded => MarkUploaded fileTypeId u fn
  | markModified => MarkModified fileTypeId u fn replaced
  end.

(** ** Effects *)

Inductive Effect :=
| UploadRequest (url : string) (f : DroppedFile)
| DeleteRequest (u : string)
| Dispatch (a : Action)
| OnChange (value : list string).

(** The uuids of the delete requests of a trace, in order. *)
Definition deleteCalls (t : list Effect) : list string :=
  flat_map (fun e => match e with DeleteRequest u => [u] | _ => [] end) t.

(** The values passed to [onChange] in a trace, in order. *)
Definition onChangeCalls (t : list Effect) : list (list string) :=
  flat_map (fun e => match e with OnChange v => [v] | _ => [] end) t.

(** The files for which a trace holds an upload request. *)
Definition uploadedFiles (t : list Effect) : list DroppedFile :=
  flat_map (fun e => match e with UploadRequest _ f => [f] | _ => [] end) t.

(** ** The registry reducer ([./reducer]) *)

Module Reducer.

(** Apply [g] to the file types with the given id. *)
Definition updateFileType (fileTypeId : nat) (g : FileType -> FileType)
    (fts : list FileType) : list FileType :=
  map (fun ft => if Nat.eqb (id ft) fileTypeId then g ft else ft) fts.

(** Is [f] the file a [markModified] replaces? *)
Definition isReplaced (replaced : option string) (f : File) : bool :=
  match replaced with
  | Some u => String.eqb (uuid f) u
  | None => false
  end.

(** Modelled from the spec: the module [./reducer] is not part of the
    sources at hand.  Section 4.3: [reset] replaces the entire state with
    the given file types, clears uploads and dirty; [markUploaded] appends
    a file with state [added] to the category, sets dirty and removes the
    matching upload; [markModified] replaces the matching file with a new
    file with state [modified] and sets dirty; [invalidTemplate] appends
    the file name to the category's invalid list and does not set dirty;
    progress updates set the progress of the category's upload and do not
    set dirty; a removal drops the entry and sets dirty; [clearDirty] sets
    dirty to false.  Section 3: an upload is created on drop-accept and
    destroyed on completion or failure. *)
Definition reducer (s : State) (a : Action) : State :=
  match a with
  | Reset initial => mkState initial ∅ false
  | ClearDirty => mkState (fileTypes s) (uploads s) false
  | InvalidTemplate c n =>
      mkState
        (updateFileType c (fun ft => setInvalidFiles ft (invalidFiles ft ++ [n]))
                        (fileTypes s))
        (uploads s) (isDirty s)
  | StartUpload c f =>
      mkState (fileTypes s) (<[c := mkUpload f 0]> (uploads s)) (isDirty s)
  | Progress c p =>
      mkState (fileTypes s) (alter (fun u => mkUpload (file u) p) c (uploads s))
              (isDirty s)
  | UploadFailed c =>
      mkState (fileTypes s) (delete c (uploads s)) (isDirty s)
  | MarkUploaded c u fn =>
      mkState
        (updateFileType c
           (fun ft => setFiles ft (files ft ++ [mkFile u fn (Some "added")]))
           (fileTypes s))
        (delete c (uploads s)) true
  | MarkModified c u fn replaced =>
      mkState
        (updateFileType c
           (fun ft =>
              setFiles ft
                (map (fun f => if isReplaced replaced f
                               then mkFile u fn (Some "modified") else f)
                     (files ft)))
           (fileTypes s))
        (delete c (uploads s)) true
  | Removed c u =>
      mkState
        (updateFileType c
           (fun ft =>
              setFiles ft
                (List.filter (fun f => negb (String.eqb (uuid f) u)) (files ft)))
           (fileTypes s))
        (uploads s) true
  end.

End Reducer.

(** The registry after the dispatched actions of a trace went through the
    reducer, in order. *)
Fixpoint run (s : State) (t : list Effect) : State :=
  match t with
  | [] => s
  | Dispatch a :: r => run (Reducer.reducer s a) r
  | _ :: r => run s r
  end.

(** ** Selectors ([./selectors]) *)

Module Selectors.

(** Modelled from the spec: the module [./selectors] is not part of the
    sources at hand.  Section 6: the value presented to the form is the
    ordered set of the file uuids across all categories. *)
Definition getFiles (s : State) : list string :=
  flat_map (fun ft => map uuid (files ft)) (fileTypes s).

(** Modelled from the spec: section 4.4, the uuids of the files currently
    marked uploaded ([added]) or modified, across all categories. *)
Definition getUploadedFileUUIDs (s : State) : list string :=
  flat_map
    (fun ft =>
       map uuid
           (List.filter (fun f => stateIs "added" f || stateIs "modified" f)
                        (files ft)))
    (fileTypes s).

(** Modelled from the spec: section 4.4, there still is an upload in
    flight. *)
Definition isUploading (s : State) : bool :=
  negb (bool_decide (uploads s = ∅)).

(** Modelled from the spec: section 4.4, a validation error string when a
    category has invalid files; the text [msg] is not given there. *)
Definition getValidationError (msg : string) (s : State) : option string :=
  if existsb (fun ft => negb (bool_decide (invalidFiles ft = []))) (fileTypes s)
  then Some msg else None.

End Selectors.

(** ** The upload coordinator ([./util]) *)

(** What the server does with one upload request (section 6): the progress
    it reports and the assigned uuid and stored file name, or a failure. *)
Record Outcome := mkOutcome {
  reports : list nat;
  result : option (string * string);
}.

Definition Server := string -> DroppedFile -> Outcome.

Module Util.

(** Modelled from the spec: the module [./util] is not part of the sources
    at hand.  Section 4.2: for each file, [uploadFiles] issues an upload
    request, reports progress through dispatched progress events, and on
    success dispatches the given mark action with the uuid and file name
    the server assigned; on failure it dispatches a failure event and the
    file is not added.  It returns, per file and in input order, the
    resulting identity or the failure sentinel [null] (here [None]).
    Section 3: the upload entity is created on drop-accept, here by a
    [StartUpload] before the request.  The uploads of one call are taken
    one after the other. *)
Fixpoint uploadFiles (creator : MarkCreator) (fileTypeId : nat)
    (fs : list DroppedFile) (uploadURL : string) (replaced : option string)
    (server : Server) : list Effect * list (option string) :=
  match fs with
  | [] => ([], [])
  | f :: rest =>
      let o := server uploadURL f in
      let completion :=
        match result o with
        | Some (u, fn) => Dispatch (mark creator fileTypeId u fn replaced)
        | None => Dispatch (UploadFailed fileTypeId)
        end in
      let here :=
        [Dispatch (StartUpload fileTypeId f); UploadRequest uploadURL f]
          ++ map (fun p => Dispatch (Progress fileTypeId p)) (reports o)
          ++ [completion] in
      let '(later, rv) :=
        uploadFiles creator fileTypeId rest uploadURL replaced server in
      (here ++ later, option_map fst (result o) :: rv)
  end.

(** Modelled from the spec: section 4.2, [deleteFile(uuid)] issues a
    fire-and-forget delete request to the server. *)
Definition deleteFile (u : string) : list Effect := [DeleteRequest u].

End Util.

(** ** Dropzone *)

Module Dropzone.

(** [!allowMultipleFiles && files.length && files[0].state !== 'added'
    ? files[0] : null] *)
Definition fileToReplace (ft : FileType) : option File :=
  match files ft with
  | f :: _ =>
      if negb (allowMultipleFiles ft) && negb (stateIs "added" f)
      then Some f else None
  | [] => None
  end.

(** [!allowMultipleFiles && files.length &&
    ['added', 'modified'].includes(files[0].state) ? files[0] : null] *)
Definition fileToDelete (ft : FileType) : option File :=
  match files ft with
  | f :: _ =>
      if negb (allowMultipleFiles ft)
         && (stateIs "added" f || stateIs "modified" f)
      then Some f else None
  | [] => None
  end.

(** [files.length === 0 || allowMultipleFiles] *)
Definition showNewFileIcon (ft : FileType) : bool :=
  match files ft with [] => true | _ => allowMultipleFiles ft end.

(** The mark action and the uuid to replace that [onDropAccepted] passes
    to the coordinator. *)
Definition callMode (ft : FileType) : MarkCreator :=
  match fileToReplace ft with Some _ => markModified | None => markUploaded end.

Definition callReplace (ft : FileType) : option string :=
  match fileToReplace ft with Some f => Some (uuid f) | None => None end.

(** [rv[0] !== null]: true for a uuid and for [undefined] (an empty [rv]). *)
Definition firstNotNull (rv : list (option string)) : bool :=
  match rv with
  | None :: _ => false
  | _ => true
  end.

Definition onDropAccepted (ft : FileType) (uploadURL : string) (server : Server)
    (acceptedFiles : list DroppedFile) : list Effect :=
  let acceptedFiles :=
    if negb (allowMultipleFiles ft) then firstn 1 acceptedFiles
    else acceptedFiles in
  let '(t, rv) :=
    Util.uploadFiles (callMode ft) (id ft) acceptedFiles uploadURL
                     (callReplace ft) server in
  t ++ match fileToDelete ft with
       | Some f => if firstNotNull rv then Util.deleteFile (uuid f) else []
       | None => []
       end.

Section Template.

(** [globToRegExp(template)] and [RegExp.prototype.test] of the result,
    from the library [glob-to-regexp]. *)
Variable globToRegExp : string -> string -> bool.

(** The callback of [eventFiles.filter]: does the file pass? *)
Definition passesTemplate (template : string) (f : DroppedFile) : bool :=
  globToRegExp template (templateStem (fname f)).

Fixpoint filterByTemplate (fileTypeId : nat) (template : string)
    (eventFiles : list DroppedFile) : list Effect * list DroppedFile :=
  match eventFiles with
  | [] => ([], [])
  | f :: rest =>
      let '(t, kept) := filterByTemplate fileTypeId template rest in
      if passesTemplate template f then (t, f :: kept)
      else (Dispatch (InvalidTemplate fileTypeId (fname f)) :: t, kept)
  end.

(** [getFilesFromEvent], with the files of the event as [fromEvent]
    gives them. *)
Definition getFilesFromEvent (ft : FileType) (eventFiles : list DroppedFile)
    : list Effect * list DroppedFile :=
  match filenameTemplate ft with
  | Some template =>
      if JS.truthy (Some template)
      then filterByTemplate (id ft) template eventFiles
      else ([], eventFiles)
  | None => ([], eventFiles)
  end.

(** What [react-dropzone] keeps of the files of an event (the [accept]
    and [multiple] options); it hands a non-empty selection to
    [onDropAccepted]. *)
Variable libraryAccept : FileType -> list DroppedFile -> list DroppedFile.

Definition handleDrop (ft : FileType) (uploadURL : string) (server : Server)
    (eventFiles : list DroppedFile) : list Effect :=
  let '(t, kept) := getFilesFromEvent ft eventFiles in
  match libraryAccept ft kept with
  | [] => t
  | acceptedFiles => t ++ onDropAccepted ft uploadURL server acceptedFiles
  end.

End Template.

End Dropzone.

(** ** FileManager *)

Module FileManager.

(** The initial state given to [useReducer]. *)
Definition initialState (_fileTypes : list FileType) : State :=
  mkState _fileTypes ∅ false.

(** JavaScript truthiness of the [pristine] prop (a boolean or [null]). *)
Definition truthyFlag (b : option bool) : bool :=
  match b with Some true => true | _ => false end.

(** A rendered validation-only [Field]: its name and what its [validate]
    returns. *)
Record ValidationField := mkField {
  fieldName : string;
  validate : string;
}.

(** The form takes a field as failing when [validate] returns an error. *)
Definition raisesFailure (fields : list ValidationField) : bool :=
  existsb (fun f => JS.truthy (Some (validate f))) fields.

Section Component.

Variable getFiles : State -> list string.
Variable getUploadedFileUUIDs : State -> list string.
Variable getValidationError : State -> option string.
Variable isUploading : State -> bool.
(** [Translate.string] *)
Variable translate : string -> string.

(** The first effect: reset on the pristine flag going from false to
    true.  It takes the content of [lastPristineRef] and gives its new
    content back. *)
Definition pristineEffect (pristine lastPristine : option bool)
    (_fileTypes : list FileType) (s : State) : list Effect * option bool :=
  (if truthyFlag pristine && negb (truthyFlag lastPristine)
   then flat_map Util.deleteFile (getUploadedFileUUIDs s)
          ++ [Dispatch (Reset _fileTypes)]
   else [],
   pristine).

(** The second effect: propagation of the value while dirty. *)
Definition dirtyEffect (s : State) : list Effect :=
  if isDirty s then [OnChange (getFiles s); Dispatch ClearDirty] else [].

(** The effect runs again after each change of the state: the traces of
    at most [n] consecutive runs. *)
Fixpoint settle (n : nat) (s : State) : list Effect :=
  match n with
  | O => []
  | S k =>
      match dirtyEffect s with
      | [] => []
      | t => t ++ settle k (run s t)
      end
  end.

(** The validation-only fields of the rendered component. *)
Definition validationFields (finalFieldName : option string) (s : State)
    : list ValidationField :=
  let uploading := isUploading s in
  let validationError := getValidationError s in
  (if JS.truthy finalFieldName && uploading
   then [mkField (String.append "_" (String.append (default "" finalFieldName) "_uploading"))
                 (translate "Upload in progress")]
   else [])
  ++
  (if JS.truthy finalFieldName && JS.truthy validationError
   then [mkField (String.append "_" (String.append (default "" finalFieldName) "_invalid"))
                 (default "" validationError)]
   else []).

End Component.

End FileManager.

(** ** Notions used in the statements *)

(** The units of [s] strictly before the first occurrence of [c]. *)
Fixpoint beforeFirst (c : ascii) (s : string) : string :=
  match s with
  | EmptyString => EmptyString
  | String a r => if Ascii.eqb a c then EmptyString else String a (beforeFirst c r)
  end.

(** The units of [s] after the first occurrence of [c]. *)
Fixpoint afterFirst (c : ascii) (s : string) : string :=
  match s with
  | EmptyString => EmptyString
  | String a r => if Ascii.eqb a c then r else afterFirst c r
  end.

(** The tested string as the claim words it: the part before the first dot
    when there is a dot, the name without its last unit otherwise. *)
Definition stemBySpec (fileName : string) : string :=
  if JS.occurs "." fileName then beforeFirst "." fileName
  else JS.dropLast fileName.

(** What one action does to one file type.  Every action but [Reset] acts
    on the file types one by one. *)
Definition actionOn (a : Action) (ft : FileType) : FileType :=
  match a with
  | InvalidTemplate c n =>
      if Nat.eqb (id ft) c then setInvalidFiles ft (invalidFiles ft ++ [n]) else ft
  | MarkUploaded c u fn =>
      if Nat.eqb (id ft) c
      then setFiles ft (files ft ++ [mkFile u fn (Some "added")]) else ft
  | MarkModified c u fn replaced =>
      if Nat.eqb (id ft) c
      then setFiles ft
             (map (fun f => if Reducer.isReplaced replaced f
                            then mkFile u fn (Some "modified") else f)
                  (files ft))
      else ft
  | Removed c u =>
      if Nat.eqb (id ft) c
      then setFiles ft
             (List.filter (fun f => negb (String.eqb (uuid f) u)) (files ft))
      else ft
  | _ => ft
  end.

Definition effectOn (e : Effect) (ft : FileType) : FileType :=
  match e with
  | Dispatch a => actionOn a ft
  | _ => ft
  end.

Fixpoint traceOn (t : list Effect) (ft : FileType) : FileType :=
  match t with
  | [] => ft
  | e :: r => traceOn r (effectOn e ft)
  end.

Definition isReset (e : Effect) : bool :=
  match e with
  | Dispatch (Reset _) => true
  | _ => false
  end.

Definition noReset (t : list Effect) : bool := forallb (fun e => negb (isReset e)) t.

(** The part of the coordinator's trace that belongs to one file. *)
Definition uploadOne (creator : MarkCreator) (c : nat) (url : string)
    (replaced : option string) (server : Server) (f : DroppedFile) : list Effect :=
  [Dispatch (StartUpload c f); UploadRequest url f]
    ++ map (fun p => Dispatch (Progress c p)) (reports (server url f))
    ++ [match result (server url f) with
        | Some (u, fn) => Dispatch (mark creator c u fn replaced)
        | None => Dispatch (UploadFailed c)
        end].

(** The files [onDropAccepted] hands to the coordinator: the first one only
    for a category that takes one file ([acceptedFiles.splice(0, 1)]). *)
Definition acceptedForUpload (ft : FileType) (acceptedFiles : list DroppedFile)
    : list DroppedFile :=
  if negb (allowMultipleFiles ft) then firstn 1 acceptedFiles else acceptedFiles.

Module Scenario.

(** The category [photo] of the scenario: one file at most, no template. *)
Definition photo (fs : list File) : FileType :=
  mkFileType 1 "photo" false fs ["jpg"; "png"] None [].

Definition fileA (st : option string) : File := mkFile "U1" "a.jpg" st.

Definition dropB : DroppedFile := mkDropped "b.png" 2.
Definition dropC : DroppedFile := mkDropped "c.png" 3.

(** A server that stores [b.png] as [U2] and fails for every other file. *)
Definition server : Server :=
  fun _ f =>
    if Nat.eqb (handle f) 2 then mkOutcome [50%nat] (Some ("U2", fname f))
    else mkOutcome [] None.

Definition registry (fs : list File) : State :=
  FileManager.initialState [photo fs].

End Scenario.

(** How many times a trace reports the file name [n] as invalid for the
    category [c]. *)
Definition invalidReports (c : nat) (n : string) (t : list Effect) : nat :=
  length
    (List.filter
       (fun e =>
          match e with
          | Dispatch (InvalidTemplate c' n') => Nat.eqb c' c && String.eqb n' n
          | _ => false
          end) t).

Definition reportInvalid (c : nat) (f : DroppedFile) : Effect :=
  Dispatch (InvalidTemplate c (fname f)).

(** The files the template turns down. *)
Definition rejectedBy (globToRegExp : string -> string -> bool)
    (template : string) (f : DroppedFile) : bool :=
  negb (Dropzone.passesTemplate globToRegExp template f).

Module TemplateScenario.

(** A matcher for patterns without wildcards. *)
Definition literalGlob (pattern tested : string) : bool :=
  String.eqb pattern tested.

Definition acceptAll (_ : FileType) (l : list DroppedFile) : list DroppedFile := l.

Definition report : FileType :=
  mkFileType 7 "report" true [] ["pdf"] (Some "report") [].

Definition notes : DroppedFile := mkDropped "notes.pdf" 1.
Definition good : DroppedFile := mkDropped "report.pdf" 2.

Definition server : Server :=
  fun _ f => mkOutcome [] (Some ("U9", fname f)).

End TemplateScenario.

(** The files of the registry that are marked uploaded or modified, over all
    categories. *)
Definition markedFiles (s : State) : list File :=
  flat_map
    (fun ft => List.filter (fun f => stateIs "added" f || stateIs "modified" f)
                           (files ft))
    (fileTypes s).

Module ValidationScenario.

(** The registry with an upload of [b.png] in flight. *)
Definition uploading : State :=
  run (Scenario.registry []) [Dispatch (StartUpload 1 Scenario.dropB)].

Definition untranslated (text : string) : string := text.

Definition getValidationError : State -> option string :=
  Selectors.getValidationError "Invalid files".

End ValidationScenario.

(** ** The rest of the file manager component *)

(** JavaScript array primitives. *)
Module JSArray.

(** [l.join(sep)] for an array of strings. *)
Fixpoint join (sep : string) (l : list string) : string :=
  match l with
  | [] => EmptyString
  | [x] => x
  | x :: r => String.append x (String.append sep (join sep r))
  end.

(** [l.findIndex(p)], counting from [i]: the first index whose element
    passes, [-1] when there is none. *)
Fixpoint findIndexFrom {A : Type} (p : A -> bool) (l : list A) (i : Z) : Z :=
  match l with
  | [] => -1
  | x :: r => if p x then i else findIndexFrom p r (i + 1)
  end.

Definition findIndex {A : Type} (p : A -> bool) (l : list A) : Z :=
  findIndexFrom p l 0.

(** [l[i]]: [undefined] (here [None]) outside of the array. *)
Definition item {A : Type} (l : list A) (i : Z) : option A :=
  if i <? 0 then None else nth_error l (Z.to_nat i).

End JSArray.

(** The options [Dropzone] hands to [useDropzone] and the icon it shows. *)
Module DropzoneOptions.

(** [extensions.map(ext => `.${ext}`).join(',')] *)
Definition accept (ft : FileType) : string :=
  JSArray.join "," (map (fun ext => String.append "." ext) (extensions ft)).

Definition multiple (ft : FileType) : bool := allowMultipleFiles ft.

(** [showNewFileIcon ? 'plus circle' : 'exchange'] *)
Definition iconName (ft : FileType) : string :=
  if Dropzone.showNewFileIcon ft then "plus circle" else "exchange".

End DropzoneOptions.

(** What the component [FileType] renders around the file list. *)
Module FileTypeView.

(** The content of the list of extensions. *)
Inductive ExtensionsBox :=
| ExtensionItems (exts : list string)
| NoRestrictions.

(** [fileType.filenameTemplate !== null]: the popup with the format. *)
Definition showsTemplateInfo (ft : FileType) : bool :=
  match filenameTemplate ft with
  | Some _ => true
  | None => false
  end.

(** [extensions.length !== 0 ? extensions.map(...) :
    Translate.string('(no extension restrictions)')] *)
Definition extensionsBox (ft : FileType) : ExtensionsBox :=
  match extensions ft with
  | [] => NoRestrictions
  | exts => ExtensionItems exts
  end.

End FileTypeView.

(** The pieces of [s] between the occurrences of [c]. *)
Fixpoint splitOn (c : ascii) (s : string) : list string :=
  match s with
  | EmptyString => [EmptyString]
  | String a r =>
      if Ascii.eqb a c then EmptyString :: splitOn c r
      else match splitOn c r with
           | x :: xs => String a x :: xs
           | [] => [String a EmptyString]
           end
  end.

(** The first effect of [FileManager] over a sequence of renders, each with
    its [pristine] flag and its state; [lastPristineRef] is threaded
    through. *)
Fixpoint pristineRuns (getUploadedFileUUIDs : State -> list string)
    (_fileTypes : list FileType) (lastPristine : option bool)
    (renders : list (option bool * State)) : list Effect :=
  match renders with
  | [] => []
  | (pristine, s) :: rest =>
      let r := FileManager.pristineEffect getUploadedFileUUIDs pristine
                 lastPristine _fileTypes s in
      fst r ++ pristineRuns getUploadedFileUUIDs _fileTypes (snd r) rest
  end.

(** The number of times a sequence of flags goes from not true to true. *)
Fixpoint risingEdges (lastPristine : option bool) (flags : list (option bool))
    : nat :=
  match flags with
  | [] => O
  | p :: rest =>
      (if FileManager.truthyFlag p && negb (FileManager.truthyFlag lastPristine)
       then 1 else 0)%nat + risingEdges p rest
  end.

Definition resetCount (t : list Effect) : nat := length (List.filter isReset t).

(** ** DateNavigator *)

Module DateNavigator.

(** The props the component reads. *)
Record Props := mkProps {
  selectedDate : string;
  mode : string;
  dateRange : list string;
}.

(** A button of the mode switcher. *)
Record ModeButton := mkModeButton {
  content : string;
  switchesTo : string;
  primary : bool;
  buttonDisabled : bool;
}.

(** The last element of an array, [undefined] for an empty one. *)
Fixpoint lastItem {A : Type} (l : list A) : option A :=
  match l with
  | [] => None
  | [x] => Some x
  | _ :: r => lastItem r
  end.

(** [renderModeSwitcher(disabled)]: nothing without a mode, else the three
    buttons. *)
Definition renderModeSwitcher (translate : string -> string) (props : Props)
    (disabled : bool) : list ModeButton :=
  if JS.truthy (Some (mode props))
  then [mkModeButton (translate "Day") "days"
                     (String.eqb (mode props) "days") disabled;
        mkModeButton (translate "Week") "weeks"
                     (String.eqb (mode props) "weeks") disabled;
        mkModeButton (translate "Month") "months"
                     (String.eqb (mode props) "months") disabled]
  else [].

Section Moment.

(** The dates of the library [moment] and the operations used on them:
    [toMoment(value, format)] of [indico/utils/date], where the value may be
    [undefined] and the format absent, [m.startOf(unit)], [m.add(n, unit)],
    [a.isSame(b)], and [isDateWithinRange(date, dateRange, toMoment)] of
    [../../util]. *)
Variable Moment : Type.
Variable toMoment : option string -> option string -> Moment.
Variable startOf : string -> Moment -> Moment.
Variable addUnits : Z -> string -> Moment -> Moment.
Variable isSame : Moment -> Moment -> bool.
Variable isDateWithinRange : Moment -> list string -> bool.

(** The calls of the callbacks [onDateChange] and [onModeChange]. *)
Inductive Call :=
| DateChange (date : Moment)
| ModeChange (newMode : string).

(** [get selectedDate()] *)
Definition selectedMoment (props : Props) : Moment :=
  toMoment (Some (selectedDate props)) (Some "YYYY-MM-DD").

(** The rounding both [setDateWithMode] and [onSelect] do: to the start of
    the week or of the month, or a plain copy. *)
Definition roundToMode (m : string) (date : Moment) : Moment :=
  if String.eqb m "weeks" then startOf "week" date
  else if String.eqb m "months" then startOf "month" date
  else date.

Definition setDateWithMode (date : Moment) (m : string) (force : bool)
    : list Call :=
  let expectedDate := roundToMode m date in
  if force || negb (isSame expectedDate date) then [DateChange expectedDate]
  else [].

(** [get dateBounds()] *)
Definition dateBounds (props : Props) : option (Moment * Moment) :=
  match dateRange props with
  | [] => None
  | first :: _ =>
      Some (startOf (mode props) (toMoment (Some first) (Some "YYYY-MM-DD")),
            startOf (mode props)
                    (toMoment (lastItem (dateRange props)) (Some "YYYY-MM-DD")))
  end.

(** [calendarDisabledDate(date)], for a date or [null]. *)
Definition calendarDisabledDate (props : Props) (date : option Moment) : bool :=
  match date with
  | None => false
  | Some d =>
      negb (Nat.eqb (length (dateRange props)) 0)
      && negb (isDateWithinRange d (dateRange props))
  end.

Definition onSelect (props : Props) (date : Moment) : list Call :=
  let freeRange := Nat.eqb (length (dateRange props)) 0 in
  if freeRange || isDateWithinRange date (dateRange props)
  then setDateWithMode (roundToMode (mode props) date) (mode props) true
  else [].

Definition changeSelectedDate (props : Props) (direction : string) : list Call :=
  let step := if String.eqb direction "next" then 1 else -1 in
  if Nat.eqb (length (dateRange props)) 0 || negb (String.eqb (mode props) "days")
  then [DateChange (addUnits step (mode props) (selectedMoment props))]
  else
    let index :=
      JSArray.findIndex (fun dt => String.eqb dt (selectedDate props))
                        (dateRange props) + step in
    [DateChange (toMoment (JSArray.item (dateRange props) index) None)].

Definition handleModeChange (props : Props) (m : string) : list Call :=
  ModeChange m :: setDateWithMode (selectedMoment props) m false.

(** The constructor. *)
Definition construct (props : Props) : list Call :=
  setDateWithMode (selectedMoment props) (mode props) false.

Definition componentDidUpdate (prevProps props : Props) : list Call :=
  if negb (String.eqb (mode prevProps) (mode props))
     || negb (String.eqb (selectedDate prevProps) (selectedDate props))
  then setDateWithMode (selectedMoment props) (mode props) false
  else [].

End Moment.

Arguments DateChange {Moment} date.
Arguments ModeChange {Moment} newMode.
Arguments selectedMoment {Moment}.
Arguments roundToMode {Moment}.
Arguments setDateWithMode {Moment}.
Arguments dateBounds {Moment}.
Arguments calendarDisabledDate {Moment}.
Arguments onSelect {Moment}.
Arguments changeSelectedDate {Moment}.
Arguments handleModeChange {Moment}.
Arguments construct {Moment}.
Arguments componentDidUpdate {Moment}.

End DateNavigator.

(** Dates as day numbers, enough to run the navigator: a week starts on a
    multiple of seven, a month has thirty days, a date string is read as
    its length. *)
Module DayMoment.

Definition toMoment (value format : option string) : Z :=
  match value with
  | Some v => Z.of_nat (String.length v)
  | None => 0
  end.

Definition startOf (unit : string) (day : Z) : Z :=
  if String.eqb unit "week" then day - day mod 7
  else if String.eqb unit "month" then day - day mod 30
  else day.

Definition addUnits (n : Z) (unit : string) (day : Z) : Z :=
  if String.eqb unit "weeks" then day + 7 * n
  else if String.eqb unit "months" then day + 30 * n
  else day + n.

Definition isSame (a b : Z) : bool := Z.eqb a b.

Definition isDateWithinRange (day : Z) (range : list string) : bool :=
  existsb (fun dt => Z.eqb (toMoment (Some dt) None) day) range.

End DayMoment.

(** ** SingleRoomTimeline *)

Module SingleRoomTimeline.

Section Timeline.

(** The bookings, periods and the like of a day, the room, and
    [moment(day).format('L')]. *)
Variable Item : Type.
Variable Room : Type.
Variable formatDay : string -> string.

(** A candidate: what it holds besides [bookable], and [bookable] when it
    has one. *)
Record Candidate := mkCandidate {
  occurrence : Item;
  bookable : option bool;
}.

(** The [availability] prop once loaded: the days and, per day, the lists. *)
Record Availability := mkAvailability {
  dateRange : list string;
  candidates : gmap string (list Candidate);
  conflictingCandidates : gmap string (list Candidate);
  preBookings : gmap string (list Item);
  bookings : gmap string (list Item);
  conflicts : gmap string (list Item);
  preConflicts : gmap string (list Item);
  nonbookablePeriods : gmap string (list Item);
  unbookableHours : option (list Item);
  blockings : gmap string (list Item);
}.

(** The [availability] of a row. *)
Record RowAvailability := mkRowAvailability {
  rowCandidates : list Candidate;
  rowConflictingCandidates : list Candidate;
  rowPreBookings : list Item;
  rowBookings : list Item;
  rowConflicts : list Item;
  rowPreConflicts : list Item;
  rowNonbookablePeriods : list Item;
  rowUnbookableHours : list Item;
  rowBlockings : list Item;
}.

Record Row := mkRow {
  rowAvailability : RowAvailability;
  label : string;
  key : string;
  conflictIndicator : bool;
  room : Room;
}.

(** [x || []] *)
Definition orEmpty {A : Type} (x : option (list A)) : list A := default [] x.

(** [{...candidate, bookable: false}] *)
Definition notBookable (c : Candidate) : Candidate :=
  mkCandidate (occurrence c) (Some false).

(** [_getRowSerializer(day)(availability)] *)
Definition getRowSerializer (r : Room) (day : string) (av : Availability) : Row :=
  mkRow
    (mkRowAvailability
       (map notBookable (orEmpty (candidates av !! day)))
       (map notBookable (orEmpty (conflictingCandidates av !! day)))
       (orEmpty (preBookings av !! day))
       (orEmpty (bookings av !! day))
       (orEmpty (conflicts av !! day))
       (orEmpty (preConflicts av !! day))
       (orEmpty (nonbookablePeriods av !! day))
       (orEmpty (unbookableHours av))
       (orEmpty (blockings av !! day)))
    (formatDay day) day true r.

(** What the component renders: the dimmer, or the timeline with its rows
    and its fixed height. *)
Inductive View :=
| Dimmer
| Timeline (rows : list Row) (fixedHeight : option string).

Definition renderRoomTimeline (r : Room) (av : Availability) : View :=
  let rows := map (fun day => getRowSerializer r day av) (dateRange av) in
  Timeline rows (if (1 <? length rows)%nat then Some "70vh" else None).

(** The component; an [availability] without any key (the default [{}]) is
    [None]. *)
Definition render (r : Room) (availability : option Availability)
    (availabilityLoading : bool) : View :=
  match availability with
  | Some av => if negb availabilityLoading then renderRoomTimeline r av else Dimmer
  | None => Dimmer
  end.

End Timeline.

Arguments mkCandidate {Item}.
Arguments occurrence {Item}.
Arguments bookable {Item}.
Arguments notBookable {Item}.
Arguments mkAvailability {Item}.
Arguments dateRange {Item}.
Arguments candidates {Item}.
Arguments conflictingCandidates {Item}.
Arguments preBookings {Item}.
Arguments bookings {Item}.
Arguments conflicts {Item}.
Arguments preConflicts {Item}.
Arguments nonbookablePeriods {Item}.
Arguments unbookableHours {Item}.
Arguments blockings {Item}.
Arguments mkRowAvailability {Item}.
Arguments rowCandidates {Item}.
Arguments rowConflictingCandidates {Item}.
Arguments rowPreBookings {Item}.
Arguments rowBookings {Item}.
Arguments rowConflicts {Item}.
Arguments rowPreConflicts {Item}.
Arguments rowNonbookablePeriods {Item}.
Arguments rowUnbookableHours {Item}.
Arguments rowBlockings {Item}.
Arguments mkRow {Item Room}.
Arguments rowAvailability {Item Room}.
Arguments label {Item Room}.
Arguments key {Item Room}.
Arguments conflictIndicator {Item Room}.
Arguments room {Item Room}.
Arguments getRowSerializer {Item Room}.
Arguments Dimmer {Item Room}.
Arguments Timeline {Item Room}.
Arguments renderRoomTimeline {Item Room}.
Arguments render {Item Room}.

End SingleRoomTimeline.

(** ** The confirmation dialog (template macro [confirmation_dialog]) *)

Module ConfirmationDialog.

(** The arguments of the macro; a string argument may be [none]. *)
Record Args := mkArgs {
  type : string;
  content : option string;
  message : option string;
  extra_confirmation : bool;
  ok_text : option string;
  cancel_text : option string;
  id_field_name : string;
  ids : list string;
  extra_inputs : list (string * string);
}.

(** What the macro puts into the form, in order.  A message box takes the
    confirmation checkbox as its footer, or no footer. *)
Inductive Element :=
| ContentDiv (html : string)
| HiddenInput (inputName value : string)
| MessageBox (boxType : string) (checkboxFooter : bool) (body : string)
| ConfirmationCheckbox
| SubmitButton (buttonType : string) (disabled : bool) (text : string)
| CloseButton (text : string).

(** [value|default(fallback, true)]: the fallback for an undefined or empty
    value. *)
Definition defaultFilter (value : option string) (fallback : string) : string :=
  if JS.truthy value then default fallback value else fallback.

Section Macro.

(** [caller()], [session.csrf_token] and the translation function [_]. *)
Variable caller : string.
Variable csrf_token : string.
Variable gettext : string -> string.

Definition confirmation_dialog (a : Args) : list Element :=
  [ContentDiv (if JS.truthy (content a) then default caller (content a) else caller);
   HiddenInput "csrf_token" csrf_token]
  ++ (if JS.truthy (message a)
      then [MessageBox (type a) (extra_confirmation a) (default "" (message a))]
      else if extra_confirmation a then [ConfirmationCheckbox] else [])
  ++ [SubmitButton (type a) (extra_confirmation a)
                   (defaultFilter (ok_text a) (gettext "Perform action"));
      CloseButton (defaultFilter (cancel_text a) (gettext "I've changed my mind!"))]
  ++ map (HiddenInput (id_field_name a)) (ids a)
  ++ map (fun input => HiddenInput (fst input) (snd input)) (extra_inputs a).

End Macro.

(** The confirmation checkboxes of a form, on their own or as a footer. *)
Definition checkboxes (form : list Element) : nat :=
  length
    (List.filter
       (fun e =>
          match e with
          | ConfirmationCheckbox => true
          | MessageBox _ footer _ => footer
          | _ => false
          end) form).

(** The submit buttons of a form: for each, whether it starts disabled. *)
Definition submitButtons (form : list Element) : list bool :=
  flat_map (fun e => match e with SubmitButton _ d _ => [d] | _ => [] end) form.

(** The hidden inputs of a form as name and value. *)
Definition hiddenInputs (form : list Element) : list (string * string) :=
  flat_map (fun e => match e with HiddenInput n v => [(n, v)] | _ => [] end) form.

End ConfirmationDialog.

Module TimelineScenario.

(** One day with a candidate that says it is bookable, and a second day the
    availability says nothing about. *)
Definition availability : SingleRoomTimeline.Availability string :=
  SingleRoomTimeline.mkAvailability
    ["2020-01-01"; "2020-01-02"]
    {[ "2020-01-01" := [SingleRoomTimeline.mkCandidate "09:00-10:00" (Some true)] ]}
    ∅ ∅
    {[ "2020-01-01" := ["08:00-09:00"] ]}
    ∅ ∅ ∅
    (Some ["00:00-06:00"])
    ∅.

Definition formatDay (day : string) : string := day.

End TimelineScenario.

Module GalleryScenario.

(** A category that takes several files and holds one already. *)
Definition gallery : FileType :=
  mkFileType 2 "gallery" true [mkFile "U1" "a.jpg" (Some "added")] [] None [].

Definition storeAll : Server :=
  fun _ f => mkOutcome [] (Some (String.append "U-" (fname f), fname f)).

End GalleryScenario.

Module NavigatorScenario.

(** Three days of January, the second one selected. *)
Definition january : DateNavigator.Props :=
  DateNavigator.mkProps "2020-01-02" "days"
                        ["2020-01-01"; "2020-01-02"; "2020-01-03"].

(** A selected date outside of the range. *)
Definition outside : DateNavigator.Props :=
  DateNavigator.mkProps "2019-12-31" "days"
                        ["2020-01-01"; "2020-01-02"; "2020-01-03"].

(** Dates kept as the strings they are read from. *)
Definition asRead (value format : option string) : option string := value.

Definition unmoved (n : Z) (unit : string) (m : option string) : option string := m.

End NavigatorScenario.

(** * Properties *)

(** ** The tested part of a file name *)

Section StringFacts.

Variable c : ascii.

Lemma beforeFirst_free (s : string) : JS.occurs c (beforeFirst c s) = false.
Proof.
  induction s as [|a r IH]; simpl; [reflexivity|].
  destruct (Ascii.eqb a c) eqn:E; simpl; [reflexivity|].
  now rewrite E.
Qed.

Lemma split_at_first (s : string) :
  JS.occurs c s = true ->
  s = String.append (beforeFirst c s) (String c (afterFirst c s)).
Proof.
  induction s as [|a r IH]; simpl; [discriminate|].
  destruct (Ascii.eqb a c) eqn:E; intros H.
  - apply Ascii.eqb_eq in E. now subst.
  - change (String a r
            = String a (String.append (beforeFirst c r)
                                      (String c (afterFirst c r)))).
    f_equal. now apply IH.
Qed.

Lemma indexOfFrom_found (s : string) (i : Z) :
  JS.occurs c s = true ->
  JS.indexOfFrom c s i = i + Z.of_nat (String.length (beforeFirst c s)).
Proof.
  revert i. induction s as [|a r IH]; simpl; intros i H; [discriminate|].
  destruct (Ascii.eqb a c) eqn:E; simpl; [lia|].
  rewrite IH by assumption. lia.
Qed.

Lemma indexOfFrom_missing (s : string) (i : Z) :
  JS.occurs c s = false -> JS.indexOfFrom c s i = -1.
Proof.
  revert i. induction s as [|a r IH]; simpl; intros i H; [reflexivity|].
  destruct (Ascii.eqb a c); [discriminate|]. now apply IH.
Qed.

Lemma beforeFirst_length (s : string) :
  (String.length (beforeFirst c s) <= String.length s)%nat.
Proof.
  induction s as [|a r IH]; simpl; [lia|].
  destruct (Ascii.eqb a c); simpl; lia.
Qed.

Lemma substring_beforeFirst (s : string) :
  substring 0 (String.length (beforeFirst c s)) s = beforeFirst c s.
Proof.
  induction s as [|a r IH]; simpl; [reflexivity|].
  destruct (Ascii.eqb a c); simpl; [reflexivity|]. now rewrite IH.
Qed.

End StringFacts.

Lemma substring_dropLast (s : string) :
  substring 0 (String.length s - 1) s = JS.dropLast s.
Proof.
  induction s as [|a r IH]; simpl; [reflexivity|].
  destruct r as [|b r']; [reflexivity|].
  simpl in *. rewrite Nat.sub_0_r in IH. now rewrite IH.
Qed.

Lemma slice_prefix (s : string) (k : nat) :
  (k <= String.length s)%nat -> JS.slice s 0 (Z.of_nat k) = substring 0 k s.
Proof.
  intros H. unfold JS.slice, JS.clampIndex.
  replace (0 <? 0) with false by reflexivity.
  replace (Z.of_nat k <? 0) with false by (symmetry; apply Z.ltb_ge; lia).
  rewrite !Z.min_l by lia.
  rewrite Z.sub_0_r, Z.max_l by lia.
  now rewrite Nat2Z.id.
Qed.

Lemma slice_minus_one (s : string) : JS.slice s 0 (-1) = JS.dropLast s.
Proof.
  unfold JS.slice, JS.clampIndex.
  replace (0 <? 0) with false by reflexivity.
  replace (-1 <? 0) with true by reflexivity.
  rewrite Z.min_l, Z.sub_0_r by lia.
  rewrite <- substring_dropLast. simpl Z.to_nat. f_equal.
  destruct s as [|a r]; [reflexivity|].
  cbn [String.length]. lia.
Qed.

Lemma templateStem_stemBySpec (fileName : string) :
  templateStem fileName = stemBySpec fileName.
Proof.
  unfold templateStem, stemBySpec, JS.indexOf.
  destruct (JS.occurs "." fileName) eqn:E.
  - rewrite indexOfFrom_found, Z.add_0_l by assumption.
    rewrite slice_prefix by apply beforeFirst_length.
    apply substring_beforeFirst.
  - rewrite indexOfFrom_missing by assumption. apply slice_minus_one.
Qed.

(** C9: the template is tested against the part of the file name strictly
    before its first dot; for a name without a dot it is tested against the
    name without its last unit.  What follows the first dot never reaches
    the test. *)
Theorem template_tested_on_stem (globToRegExp : string -> string -> bool)
    (template : string) (f : DroppedFile) :
  templateStem (fname f) = stemBySpec (fname f)
  /\ Dropzone.passesTemplate globToRegExp template f
     = globToRegExp template (stemBySpec (fname f))
  /\ JS.occurs "." (stemBySpec (fname f)) = false
  /\ fname f
     = (if JS.occurs "." (fname f)
        then String.append (stemBySpec (fname f))
                           (String "." (afterFirst "." (fname f)))
        else fname f).
Proof.
  unfold Dropzone.passesTemplate. rewrite templateStem_stemBySpec.
  split; [reflexivity|]. split; [reflexivity|].
  unfold stemBySpec. destruct (JS.occurs "." (fname f)) eqn:E.
  - split; [apply beforeFirst_free | now apply split_at_first].
  - split; [|reflexivity].
    clear -E. induction (fname f) as [|a r IH]; simpl in *; [reflexivity|].
    destruct (Ascii.eqb a ".") eqn:Ea; [discriminate|].
    destruct r as [|b r']; [reflexivity|].
    simpl. rewrite Ea. now apply IH.
Qed.

Example stem_of_dotted : templateStem "paper.v2.pdf" = "paper".
Proof. reflexivity. Qed.

Example stem_of_undotted : templateStem "README" = "READM".
Proof. reflexivity. Qed.

Example stem_of_hidden : templateStem ".bashrc" = "".
Proof. reflexivity. Qed.

(** ** How a trace acts on the file types of the registry *)

Lemma fileTypes_reducer (s : State) (a : Action) :
  isReset (Dispatch a) = false ->
  fileTypes (Reducer.reducer s a) = map (actionOn a) (fileTypes s).
Proof.
  destruct a; simpl; intros H; try discriminate;
    try reflexivity; try (symmetry; apply map_id).
Qed.

Lemma fileTypes_run (t : list Effect) :
  forall s, noReset t = true ->
            fileTypes (run s t) = map (traceOn t) (fileTypes s).
Proof.
  induction t as [|e r IH]; intros s H; simpl.
  - symmetry. apply map_id.
  - simpl in H. apply andb_prop in H as [He Hr].
    apply negb_true_iff in He.
    destruct e as [url f|u|a|v]; simpl; rewrite IH by assumption;
      try reflexivity.
    rewrite fileTypes_reducer by assumption. apply map_map.
Qed.

Lemma run_app (t1 t2 : list Effect) :
  forall s, run s (t1 ++ t2) = run (run s t1) t2.
Proof.
  induction t1 as [|e r IH]; intros s; simpl; [reflexivity|].
  destruct e; apply IH.
Qed.

Lemma traceOn_app (t1 t2 : list Effect) :
  forall ft, traceOn (t1 ++ t2) ft = traceOn t2 (traceOn t1 ft).
Proof.
  induction t1 as [|e r IH]; intros ft; simpl; [reflexivity|apply IH].
Qed.

Lemma traceOn_progress (c : nat) (ps : list nat) (ft : FileType) :
  traceOn (map (fun p => Dispatch (Progress c p)) ps) ft = ft.
Proof. induction ps as [|p r IH]; simpl; [reflexivity|exact IH]. Qed.

Lemma noReset_app (t1 t2 : list Effect) :
  noReset (t1 ++ t2) = noReset t1 && noReset t2.
Proof. apply forallb_app. Qed.

Lemma noReset_progress (c : nat) (ps : list nat) :
  noReset (map (fun p => Dispatch (Progress c p)) ps) = true.
Proof. induction ps as [|p r IH]; simpl; [reflexivity|exact IH]. Qed.

(** ** The coordinator's trace *)

Lemma uploadFiles_cons (creator : MarkCreator) (c : nat) (url : string)
    (replaced : option string) (server : Server) (f : DroppedFile)
    (rest : list DroppedFile) :
  fst (Util.uploadFiles creator c (f :: rest) url replaced server)
  = uploadOne creator c url replaced server f
      ++ fst (Util.uploadFiles creator c rest url replaced server).
Proof.
  simpl. destruct (Util.uploadFiles creator c rest url replaced server).
  reflexivity.
Qed.

Lemma deleteCalls_app (t1 t2 : list Effect) :
  deleteCalls (t1 ++ t2) = deleteCalls t1 ++ deleteCalls t2.
Proof. apply flat_map_app. Qed.

Lemma uploadedFiles_app (t1 t2 : list Effect) :
  uploadedFiles (t1 ++ t2) = uploadedFiles t1 ++ uploadedFiles t2.
Proof. apply flat_map_app. Qed.

Section OneUpload.

Variables (creator : MarkCreator) (c : nat) (url : string)
          (replaced : option string) (server : Server).

Lemma deleteCalls_progress (ps : list nat) :
  deleteCalls (map (fun p => Dispatch (Progress c p)) ps) = [].
Proof. induction ps as [|p r IH]; simpl; [reflexivity|exact IH]. Qed.

Lemma uploadedFiles_progress (ps : list nat) :
  uploadedFiles (map (fun p => Dispatch (Progress c p)) ps) = [].
Proof. induction ps as [|p r IH]; simpl; [reflexivity|exact IH]. Qed.

Lemma uploadOne_noReset (f : DroppedFile) :
  noReset (uploadOne creator c url replaced server f) = true.
Proof.
  unfold uploadOne. rewrite !noReset_app, noReset_progress.
  destruct (result (server url f)) as [[u fn]|]; [destruct creator|];
    reflexivity.
Qed.

Lemma uploadOne_deleteCalls (f : DroppedFile) :
  deleteCalls (uploadOne creator c url replaced server f) = [].
Proof.
  unfold uploadOne. rewrite !deleteCalls_app, deleteCalls_progress.
  destruct (result (server url f)) as [[u fn]|]; reflexivity.
Qed.

Lemma uploadOne_uploadedFiles (f : DroppedFile) :
  uploadedFiles (uploadOne creator c url replaced server f) = [f].
Proof.
  unfold uploadOne. rewrite !uploadedFiles_app, uploadedFiles_progress.
  destruct (result (server url f)) as [[u fn]|]; reflexivity.
Qed.

(** Of the trace of one upload, only the completion acts on a file type. *)
Lemma uploadOne_traceOn (f : DroppedFile) (ft : FileType) :
  traceOn (uploadOne creator c url replaced server f) ft
  = match result (server url f) with
    | Some (u, fn) => actionOn (mark creator c u fn replaced) ft
    | None => ft
    end.
Proof.
  unfold uploadOne. rewrite !traceOn_app, traceOn_progress.
  destruct (result (server url f)) as [[u fn]|]; reflexivity.
Qed.

Lemma uploadFiles_noReset (fs : list DroppedFile) :
  noReset (fst (Util.uploadFiles creator c fs url replaced server)) = true.
Proof.
  induction fs as [|f rest IH]; [reflexivity|].
  now rewrite uploadFiles_cons, noReset_app, uploadOne_noReset, IH.
Qed.

Lemma uploadFiles_deleteCalls (fs : list DroppedFile) :
  deleteCalls (fst (Util.uploadFiles creator c fs url replaced server)) = [].
Proof.
  induction fs as [|f rest IH]; [reflexivity|].
  now rewrite uploadFiles_cons, deleteCalls_app, uploadOne_deleteCalls, IH.
Qed.

(** The coordinator requests an upload for each file it is given, in
    order. *)
Lemma uploadFiles_uploadedFiles (fs : list DroppedFile) :
  uploadedFiles (fst (Util.uploadFiles creator c fs url replaced server)) = fs.
Proof.
  induction fs as [|f rest IH]; [reflexivity|].
  now rewrite uploadFiles_cons, uploadedFiles_app, uploadOne_uploadedFiles, IH.
Qed.

End OneUpload.

(** The result list follows the outcomes of the server, in order. *)
Lemma uploadFiles_results (creator : MarkCreator) (c : nat) (url : string)
    (replaced : option string) (server : Server) (fs : list DroppedFile) :
  snd (Util.uploadFiles creator c fs url replaced server)
  = map (fun f => option_map fst (result (server url f))) fs.
Proof.
  induction fs as [|f rest IH]; simpl; [reflexivity|].
  destruct (Util.uploadFiles creator c rest url replaced server) as [later rv].
  simpl in *. now rewrite IH.
Qed.

Lemma onDropAccepted_unfold (ft : FileType) (url : string) (server : Server)
    (acceptedFiles : list DroppedFile) :
  Dropzone.onDropAccepted ft url server acceptedFiles
  = fst (Util.uploadFiles (Dropzone.callMode ft) (id ft)
           (acceptedForUpload ft acceptedFiles) url (Dropzone.callReplace ft) server)
    ++ match Dropzone.fileToDelete ft with
       | Some f =>
           if Dropzone.firstNotNull
                (map (fun d => option_map fst (result (server url d)))
                     (acceptedForUpload ft acceptedFiles))
           then [DeleteRequest (uuid f)] else []
       | None => []
       end.
Proof.
  unfold Dropzone.onDropAccepted. fold (acceptedForUpload ft acceptedFiles).
  rewrite <- (uploadFiles_results (Dropzone.callMode ft) (id ft) url
                (Dropzone.callReplace ft) server).
  destruct (Util.uploadFiles _ _ _ _ _ _) as [t rv]. reflexivity.
Qed.

Lemma onDropAccepted_deleteCalls (ft : FileType) (url : string) (server : Server)
    (acceptedFiles : list DroppedFile) :
  deleteCalls (Dropzone.onDropAccepted ft url server acceptedFiles)
  = match Dropzone.fileToDelete ft with
    | Some f =>
        if Dropzone.firstNotNull
             (map (fun d => option_map fst (result (server url d)))
                  (acceptedForUpload ft acceptedFiles))
        then [uuid f] else []
    | None => []
    end.
Proof.
  rewrite onDropAccepted_unfold, deleteCalls_app, uploadFiles_deleteCalls.
  destruct (Dropzone.fileToDelete ft) as [f|]; [|reflexivity].
  destruct (Dropzone.firstNotNull _); reflexivity.
Qed.

Lemma onDropAccepted_uploadedFiles (ft : FileType) (url : string) (server : Server)
    (acceptedFiles : list DroppedFile) :
  uploadedFiles (Dropzone.onDropAccepted ft url server acceptedFiles)
  = acceptedForUpload ft acceptedFiles.
Proof.
  rewrite onDropAccepted_unfold, uploadedFiles_app, uploadFiles_uploadedFiles.
  destruct (Dropzone.fileToDelete ft) as [f|]; [|apply app_nil_r].
  destruct (Dropzone.firstNotNull _); apply app_nil_r.
Qed.

Lemma onDropAccepted_noReset (ft : FileType) (url : string) (server : Server)
    (acceptedFiles : list DroppedFile) :
  noReset (Dropzone.onDropAccepted ft url server acceptedFiles) = true.
Proof.
  rewrite onDropAccepted_unfold, noReset_app, uploadFiles_noReset.
  destruct (Dropzone.fileToDelete ft) as [f|]; [|reflexivity].
  destruct (Dropzone.firstNotNull _); reflexivity.
Qed.

(** For a category that takes one file, only the first accepted file is
    uploaded, and the delete request hangs on its outcome. *)
Lemma onDropAccepted_single (ft : FileType) (url : string) (server : Server)
    (d : DroppedFile) (rest : list DroppedFile) :
  allowMultipleFiles ft = false ->
  Dropzone.onDropAccepted ft url server (d :: rest)
  = uploadOne (Dropzone.callMode ft) (id ft) url (Dropzone.callReplace ft) server d
    ++ match Dropzone.fileToDelete ft with
       | Some f =>
           match result (server url d) with
           | Some _ => [DeleteRequest (uuid f)]
           | None => []
           end
       | None => []
       end.
Proof.
  intros Hsingle. rewrite onDropAccepted_unfold.
  unfold acceptedForUpload. rewrite Hsingle. simpl negb. cbv iota.
  change (firstn 1 (d :: rest)) with [d].
  rewrite uploadFiles_cons. simpl fst. rewrite app_nil_r. f_equal.
  destruct (Dropzone.fileToDelete ft) as [f|]; [|reflexivity].
  simpl. destruct (result (server url d)) as [[u fn]|]; reflexivity.
Qed.

(** What the trace of a drop on a single-file category does to a file type
    of the registry. *)
Lemma onDropAccepted_single_traceOn (ft : FileType) (url : string)
    (server : Server) (d : DroppedFile) (rest : list DroppedFile)
    (ft' : FileType) :
  allowMultipleFiles ft = false ->
  traceOn (Dropzone.onDropAccepted ft url server (d :: rest)) ft'
  = match result (server url d) with
    | Some (u, fn) =>
        actionOn (mark (Dropzone.callMode ft) (id ft) u fn (Dropzone.callReplace ft))
                 ft'
    | None => ft'
    end.
Proof.
  intros Hsingle. rewrite onDropAccepted_single by assumption.
  rewrite traceOn_app, uploadOne_traceOn.
  destruct (Dropzone.fileToDelete ft) as [f|]; [|reflexivity].
  destruct (result (server url d)) as [[u fn]|]; reflexivity.
Qed.

(** ** Replacement in a single-file category *)

(** C1, as amended: in a category that takes one file and holds the file
    [f], a successful upload of a new file goes to the coordinator in modify
    mode with the uuid of [f] when the state of [f] is not ['added'], and
    then the category holds exactly the new file, in state ['modified']; the
    old file is deleted from the server exactly once when its state is
    ['modified'] and not at all otherwise.  When the state of [f] is
    ['added'], the upload goes to the coordinator in add mode without a uuid
    to replace, and exactly one delete request, for [f], is issued. *)
Theorem replace_single_file (ft : FileType) (f : File) (url : string)
    (server : Server) (d : DroppedFile) (rest : list DroppedFile)
    (u fn : string) (s : State) :
  allowMultipleFiles ft = false ->
  files ft = [f] ->
  In ft (fileTypes s) ->
  result (server url d) = Some (u, fn) ->
  let t := Dropzone.onDropAccepted ft url server (d :: rest) in
  uploadedFiles t = [d]
  /\ if stateIs "added" f
     then Dropzone.callMode ft = markUploaded
          /\ Dropzone.callReplace ft = None
          /\ deleteCalls t = [uuid f]
     else Dropzone.callMode ft = markModified
          /\ Dropzone.callReplace ft = Some (uuid f)
          /\ In (setFiles ft [mkFile u fn (Some "modified")]) (fileTypes (run s t))
          /\ deleteCalls t = (if stateIs "modified" f then [uuid f] else []).
Proof.
  intros Hsingle Hfiles Hin Hok t.
  assert (Hup : uploadedFiles t = [d]).
  { unfold t. rewrite onDropAccepted_uploadedFiles.
    unfold acceptedForUpload. now rewrite Hsingle. }
  assert (Hdel : deleteCalls t
                 = if stateIs "added" f || stateIs "modified" f
                   then [uuid f] else []).
  { unfold t. rewrite onDropAccepted_single, deleteCalls_app by assumption.
    rewrite uploadOne_deleteCalls, Hok.
    unfold Dropzone.fileToDelete. rewrite Hfiles, Hsingle. simpl.
    destruct (stateIs "added" f || stateIs "modified" f); reflexivity. }
  split; [exact Hup|].
  unfold Dropzone.callMode, Dropzone.callReplace, Dropzone.fileToReplace.
  rewrite Hfiles, Hsingle. simpl negb. rewrite andb_true_l.
  destruct (stateIs "added" f) eqn:Ea; simpl.
  - repeat split. now rewrite Hdel.
  - repeat split; [|now rewrite Hdel].
    unfold t. rewrite fileTypes_run by apply onDropAccepted_noReset.
    apply in_map_iff. exists ft. split; [|assumption].
    rewrite onDropAccepted_single_traceOn, Hok by assumption.
    unfold Dropzone.callMode, Dropzone.callReplace, Dropzone.fileToReplace.
    rewrite Hfiles, Hsingle. simpl negb. rewrite andb_true_l, Ea. simpl.
    rewrite Nat.eqb_refl, Hfiles. simpl. now rewrite String.eqb_refl.
Qed.

(** The theorem at the scenario: [a.jpg] was modified before and is replaced
    by [b.png]. *)
Lemma replace_single_file_witness :
  let ft := Scenario.photo [Scenario.fileA (Some "modified")] in
  let t := Dropzone.onDropAccepted ft "/upload" Scenario.server [Scenario.dropB] in
  uploadedFiles t = [Scenario.dropB]
  /\ Dropzone.callMode ft = markModified
  /\ Dropzone.callReplace ft = Some "U1"
  /\ In (Scenario.photo [mkFile "U2" "b.png" (Some "modified")])
        (fileTypes (run (Scenario.registry [Scenario.fileA (Some "modified")]) t))
  /\ deleteCalls t = ["U1"].
Proof.
  exact (replace_single_file
           (Scenario.photo [Scenario.fileA (Some "modified")])
           (Scenario.fileA (Some "modified")) "/upload" Scenario.server
           Scenario.dropB [] "U2" "b.png"
           (Scenario.registry [Scenario.fileA (Some "modified")])
           eq_refl eq_refl (or_introl eq_refl) eq_refl).
Defined.

(** C1 fails as it is worded: with the existing file in state ['added'] the
    coordinator is not invoked in modify mode, no uuid is handed over, and no
    file in state ['modified'] comes out. *)
Lemma replace_added_file_is_add_mode :
  let ft := Scenario.photo [Scenario.fileA (Some "added")] in
  let t := Dropzone.onDropAccepted ft "/upload" Scenario.server [Scenario.dropB] in
  allowMultipleFiles ft = false
  /\ files ft = [Scenario.fileA (Some "added")]
  /\ result (Scenario.server "/upload" Scenario.dropB) = Some ("U2", "b.png")
  /\ ~ (Dropzone.callMode ft = markModified
        /\ Dropzone.callReplace ft = Some "U1"
        /\ deleteCalls t = ["U1"]
        /\ exists g,
             In (Scenario.photo [g])
                (fileTypes (run (Scenario.registry [Scenario.fileA (Some "added")]) t))
             /\ state g = Some "modified").
Proof.
  cbv zeta. repeat split.
  intros [Hmode _]. vm_compute in Hmode. discriminate Hmode.
Qed.

(** ** A failed replacement *)

(** C2: in a category that takes one file, when the upload of the new file
    fails (its entry in the result list is the [null] sentinel), no delete
    request is issued and the file types of the registry, so the uuid and
    the state of the existing file, are what they were. *)
Theorem failed_replacement_keeps_file (ft : FileType) (url : string)
    (server : Server) (d : DroppedFile) (rest : list DroppedFile) (s : State) :
  allowMultipleFiles ft = false ->
  result (server url d) = None ->
  let t := Dropzone.onDropAccepted ft url server (d :: rest) in
  snd (Util.uploadFiles (Dropzone.callMode ft) (id ft) [d] url
                        (Dropzone.callReplace ft) server) = [None]
  /\ deleteCalls t = []
  /\ fileTypes (run s t) = fileTypes s.
Proof.
  intros Hsingle Hfail t. split; [|split].
  - rewrite uploadFiles_results. simpl. now rewrite Hfail.
  - unfold t. rewrite onDropAccepted_single, deleteCalls_app by assumption.
    rewrite uploadOne_deleteCalls, Hfail.
    destruct (Dropzone.fileToDelete ft); reflexivity.
  - unfold t. rewrite fileTypes_run by apply onDropAccepted_noReset.
    rewrite <- (map_id (fileTypes s)) at 2.
    apply map_ext. intros ft'.
    rewrite onDropAccepted_single_traceOn by assumption.
    now rewrite Hfail.
Qed.

Lemma failed_replacement_keeps_file_witness :
  let ft := Scenario.photo [Scenario.fileA (Some "added")] in
  let s := Scenario.registry [Scenario.fileA (Some "added")] in
  let t := Dropzone.onDropAccepted ft "/upload" Scenario.server [Scenario.dropC] in
  snd (Util.uploadFiles (Dropzone.callMode ft) (id ft) [Scenario.dropC] "/upload"
                        (Dropzone.callReplace ft) Scenario.server) = [None]
  /\ deleteCalls t = []
  /\ fileTypes (run s t) = fileTypes s.
Proof.
  exact (failed_replacement_keeps_file
           (Scenario.photo [Scenario.fileA (Some "added")]) "/upload"
           Scenario.server Scenario.dropC []
           (Scenario.registry [Scenario.fileA (Some "added")])
           eq_refl eq_refl).
Defined.

(** ** Files that came with the form are not deleted *)

(** C10: when the file of a single-file category is neither in state
    ['added'] nor in state ['modified'], a drop issues no delete request,
    whatever the outcome of the upload; a delete request is only ever issued
    for the first file of a single-file category, with that file in state
    ['added'] or ['modified']. *)
Theorem initial_file_not_deleted (ft : FileType) (f : File) (fs : list File)
    (url : string) (server : Server) (acceptedFiles : list DroppedFile) :
  allowMultipleFiles ft = false ->
  files ft = f :: fs ->
  stateIs "added" f = false ->
  stateIs "modified" f = false ->
  Dropzone.fileToDelete ft = None
  /\ deleteCalls (Dropzone.onDropAccepted ft url server acceptedFiles) = []
  /\ Dropzone.fileToReplace ft = Some f
  /\ forall (ft' : FileType) (accepted' : list DroppedFile) (u' : string),
       In u' (deleteCalls (Dropzone.onDropAccepted ft' url server accepted')) ->
       exists g gs,
         files ft' = g :: gs /\ u' = uuid g /\ allowMultipleFiles ft' = false
         /\ stateIs "added" g || stateIs "modified" g = true.
Proof.
  intros Hsingle Hfiles Ha Hm.
  assert (Hnone : Dropzone.fileToDelete ft = None).
  { unfold Dropzone.fileToDelete. now rewrite Hfiles, Hsingle, Ha, Hm. }
  split; [exact Hnone|]. split; [|split].
  - now rewrite onDropAccepted_deleteCalls, Hnone.
  - unfold Dropzone.fileToReplace. now rewrite Hfiles, Hsingle, Ha.
  - intros ft' accepted' u'. rewrite onDropAccepted_deleteCalls.
    unfold Dropzone.fileToDelete.
    destruct (files ft') as [|g gs]; [intros []|].
    destruct (allowMultipleFiles ft'); [intros []|]. simpl negb.
    rewrite andb_true_l.
    destruct (stateIs "added" g || stateIs "modified" g) eqn:E; [|intros []].
    destruct (Dropzone.firstNotNull _); [|intros []].
    intros [Hu|[]]. exists g, gs. repeat split; congruence.
Qed.

Lemma initial_file_not_deleted_witness :
  let ft := Scenario.photo [Scenario.fileA None] in
  Dropzone.fileToDelete ft = None
  /\ deleteCalls
       (Dropzone.onDropAccepted ft "/upload" Scenario.server [Scenario.dropB]) = []
  /\ Dropzone.fileToReplace ft = Some (Scenario.fileA None).
Proof.
  destruct (initial_file_not_deleted
              (Scenario.photo [Scenario.fileA None]) (Scenario.fileA None) []
              "/upload" Scenario.server [Scenario.dropB]
              eq_refl eq_refl eq_refl eq_refl) as (H1 & H2 & H3 & _).
  exact (conj H1 (conj H2 H3)).
Defined.

(** ** Files rejected by the filename template *)

Section TemplateFacts.

Variable globToRegExp : string -> string -> bool.
Variables (c : nat) (template : string).

Lemma filterByTemplate_spec (eventFiles : list DroppedFile) :
  Dropzone.filterByTemplate globToRegExp c template eventFiles
  = (map (reportInvalid c) (List.filter (rejectedBy globToRegExp template) eventFiles),
     List.filter (Dropzone.passesTemplate globToRegExp template) eventFiles).
Proof.
  induction eventFiles as [|f rest IH]; simpl; [reflexivity|].
  rewrite IH. unfold rejectedBy.
  destruct (Dropzone.passesTemplate globToRegExp template f); reflexivity.
Qed.

(** Files of the same name are rejected together: the test reads the name
    only. *)
Lemma invalidReports_rejected (n : string) (eventFiles : list DroppedFile) :
  globToRegExp template (templateStem n) = false ->
  invalidReports c n (map (reportInvalid c) (List.filter (rejectedBy globToRegExp template) eventFiles))
  = length (List.filter (fun x => String.eqb (fname x) n) eventFiles).
Proof.
  intros Hrej. unfold invalidReports.
  induction eventFiles as [|f rest IH]; simpl; [reflexivity|].
  unfold rejectedBy at 1. unfold Dropzone.passesTemplate.
  destruct (String.eqb (fname f) n) eqn:En.
  - apply String.eqb_eq in En. rewrite En, Hrej. simpl.
    rewrite Nat.eqb_refl, En, String.eqb_refl. simpl. now rewrite IH.
  - destruct (globToRegExp template (templateStem (fname f))); simpl;
      [exact IH|].
    rewrite En, andb_false_r. exact IH.
Qed.

Lemma reports_traceOn (fs : list DroppedFile) :
  forall ft,
    traceOn (map (reportInvalid c) fs) ft
    = if Nat.eqb (id ft) c
      then setInvalidFiles ft (invalidFiles ft ++ map fname fs)
      else ft.
Proof.
  induction fs as [|f rest IH]; intros ft; simpl.
  - destruct (Nat.eqb (id ft) c); [|reflexivity].
    rewrite app_nil_r. now destruct ft.
  - rewrite IH. destruct (Nat.eqb (id ft) c) eqn:E; simpl; [|now rewrite E].
    rewrite E. unfold setInvalidFiles. simpl. now rewrite <- app_assoc.
Qed.

Lemma reports_noReset (fs : list DroppedFile) :
  noReset (map (reportInvalid c) fs) = true.
Proof. induction fs as [|f rest IH]; simpl; [reflexivity|exact IH]. Qed.

Lemma reports_uploadedFiles (fs : list DroppedFile) :
  uploadedFiles (map (reportInvalid c) fs) = [].
Proof. induction fs as [|f rest IH]; simpl; [reflexivity|exact IH]. Qed.

End TemplateFacts.

Lemma acceptedForUpload_incl (ft : FileType) (l : list DroppedFile) (d : DroppedFile) :
  In d (acceptedForUpload ft l) -> In d l.
Proof.
  unfold acceptedForUpload. destruct (negb (allowMultipleFiles ft)); [|tauto].
  destruct l as [|x r]; simpl; tauto.
Qed.

(** C4: with a filename template set, every file of a drop whose name fails
    the test is reported by one [invalidTemplate] action carrying the id of
    the category and the file name, once per dropped file of that name; it is
    not among the files handed on, no upload is requested for it, and the
    reports change the invalid list of the category only, not the files. *)
Theorem invalid_template_reported
    (globToRegExp : string -> string -> bool)
    (libraryAccept : FileType -> list DroppedFile -> list DroppedFile)
    (ft : FileType) (template url : string) (server : Server)
    (eventFiles : list DroppedFile) (d : DroppedFile) (s : State) :
  (forall ft' l x, In x (libraryAccept ft' l) -> In x l) ->
  filenameTemplate ft = Some template ->
  JS.truthy (Some template) = true ->
  In d eventFiles ->
  Dropzone.passesTemplate globToRegExp template d = false ->
  let t := fst (Dropzone.getFilesFromEvent globToRegExp ft eventFiles) in
  let kept := snd (Dropzone.getFilesFromEvent globToRegExp ft eventFiles) in
  t = map (reportInvalid (id ft))
          (List.filter (rejectedBy globToRegExp template) eventFiles)
  /\ invalidReports (id ft) (fname d) t
     = length (List.filter (fun x => String.eqb (fname x) (fname d)) eventFiles)
  /\ (1 <= invalidReports (id ft) (fname d) t)%nat
  /\ ~ In d kept
  /\ ~ In d (uploadedFiles
               (Dropzone.handleDrop globToRegExp libraryAccept ft url server
                                    eventFiles))
  /\ map files (fileTypes (run s t)) = map files (fileTypes s).
Proof.
  intros Hlib Htemplate Htruthy Hin Hrej t kept.
  assert (Hget : Dropzone.getFilesFromEvent globToRegExp ft eventFiles
                 = Dropzone.filterByTemplate globToRegExp (id ft) template eventFiles).
  { unfold Dropzone.getFilesFromEvent. now rewrite Htemplate, Htruthy. }
  assert (Ht : t = map (reportInvalid (id ft))
                     (List.filter (rejectedBy globToRegExp template) eventFiles)).
  { unfold t. now rewrite Hget, filterByTemplate_spec. }
  assert (Hkept : ~ In d kept).
  { unfold kept. rewrite Hget, filterByTemplate_spec. simpl.
    rewrite filter_In. intros [_ Hpass]. congruence. }
  assert (Hcount : invalidReports (id ft) (fname d) t
                   = length (List.filter (fun x => String.eqb (fname x) (fname d))
                                         eventFiles)).
  { rewrite Ht. now apply invalidReports_rejected. }
  split; [exact Ht|]. split; [exact Hcount|]. split; [|split; [exact Hkept|split]].
  - rewrite Hcount.
    assert (Hd : In d (List.filter (fun x => String.eqb (fname x) (fname d)) eventFiles))
      by (apply filter_In; split; [assumption|apply String.eqb_refl]).
    apply in_split in Hd as (l1 & l2 & ->). rewrite length_app. simpl. lia.
  - unfold Dropzone.handleDrop.
    fold t kept.
    replace (Dropzone.getFilesFromEvent globToRegExp ft eventFiles)
      with (t, kept) by (unfold t, kept; now destruct (Dropzone.getFilesFromEvent _ _ _)).
    assert (Hnone : uploadedFiles t = []) by (rewrite Ht; apply reports_uploadedFiles).
    destruct (libraryAccept ft kept) as [|a acc] eqn:Hacc;
      [rewrite Hnone; intros []|].
    rewrite uploadedFiles_app, Hnone, onDropAccepted_uploadedFiles. simpl.
    intros Hd. apply acceptedForUpload_incl in Hd.
    apply Hkept, (Hlib ft). now rewrite Hacc.
  - rewrite Ht, fileTypes_run by apply reports_noReset.
    rewrite map_map. apply map_ext. intros ft'.
    rewrite reports_traceOn. now destruct (Nat.eqb (id ft') (id ft)).
Qed.

Lemma invalid_template_reported_witness :
  let ft := TemplateScenario.report in
  let drop := [TemplateScenario.notes; TemplateScenario.good] in
  let t := fst (Dropzone.getFilesFromEvent TemplateScenario.literalGlob ft drop) in
  t = [Dispatch (InvalidTemplate 7 "notes.pdf")]
  /\ invalidReports 7 "notes.pdf" t = 1%nat
  /\ ~ In TemplateScenario.notes
        (uploadedFiles
           (Dropzone.handleDrop TemplateScenario.literalGlob
              TemplateScenario.acceptAll ft "/upload" TemplateScenario.server drop)).
Proof.
  destruct (invalid_template_reported
              TemplateScenario.literalGlob TemplateScenario.acceptAll
              TemplateScenario.report "report" "/upload" TemplateScenario.server
              [TemplateScenario.notes; TemplateScenario.good]
              TemplateScenario.notes
              (FileManager.initialState [TemplateScenario.report])
              (fun _ _ _ H => H) eq_refl eq_refl (or_introl eq_refl) eq_refl)
    as (H1 & H2 & _ & _ & H5 & _).
  exact (conj H1 (conj H2 H5)).
Defined.

(** ** Reset of the registry *)

(** C6: the [reset] action gives a registry whose file types, and so its
    derived file list, are the given ones, whose dirty flag is false and
    whose map of uploads is empty: the state [FileManager] starts from. *)
Theorem reset_gives_initial_state (s : State) (initial : list FileType) :
  let s' := Reducer.reducer s (Reset initial) in
  s' = FileManager.initialState initial
  /\ fileTypes s' = initial
  /\ Selectors.getFiles s' = flat_map (fun ft => map uuid (files ft)) initial
  /\ isDirty s' = false
  /\ uploads s' = ∅
  /\ Selectors.isUploading s' = false
  /\ run s [Dispatch (Reset initial)] = s'.
Proof. repeat split. Qed.

Example reset_forgets_uploads :
  let s := run (Scenario.registry [])
               [Dispatch (StartUpload 1 Scenario.dropB);
                Dispatch (MarkUploaded 1 "U2" "b.png");
                Dispatch (StartUpload 1 Scenario.dropC)] in
  Selectors.isUploading s = true
  /\ isDirty s = true
  /\ Selectors.getFiles s = ["U2"]
  /\ Selectors.getFiles
       (Reducer.reducer s (Reset [Scenario.photo [Scenario.fileA None]])) = ["U1"].
Proof. repeat split. Qed.

(** ** The pristine flag *)

Lemma getUploadedFileUUIDs_markedFiles (s : State) :
  Selectors.getUploadedFileUUIDs s = map uuid (markedFiles s).
Proof.
  unfold Selectors.getUploadedFileUUIDs, markedFiles.
  induction (fileTypes s) as [|ft r IH]; simpl; [reflexivity|].
  now rewrite map_app, IH.
Qed.

Lemma deleteFiles_requests (us : list string) :
  flat_map Util.deleteFile us = map DeleteRequest us.
Proof. induction us as [|u r IH]; simpl; [reflexivity|now rewrite IH]. Qed.

Lemma deleteCalls_deleteFiles (us : list string) (tail : list Effect) :
  deleteCalls (flat_map Util.deleteFile us ++ tail) = us ++ deleteCalls tail.
Proof. induction us as [|u r IH]; simpl; [reflexivity|now rewrite IH]. Qed.

Lemma run_deleteFiles (us : list string) (tail : list Effect) (s : State) :
  run s (flat_map Util.deleteFile us ++ tail) = run s tail.
Proof. induction us as [|u r IH]; simpl; [reflexivity|exact IH]. Qed.

(** The effect for any selector: when [pristine] is true and the remembered
    flag is not, one delete request per uuid the selector returns, then one
    [reset]. *)
Lemma pristineEffect_fires (getUploadedFileUUIDs : State -> list string)
    (lastPristine : option bool) (_fileTypes : list FileType) (s : State) :
  FileManager.truthyFlag lastPristine = false ->
  FileManager.pristineEffect getUploadedFileUUIDs (Some true) lastPristine
                             _fileTypes s
  = (flat_map Util.deleteFile (getUploadedFileUUIDs s)
       ++ [Dispatch (Reset _fileTypes)],
     Some true).
Proof. intros H. unfold FileManager.pristineEffect. now rewrite H. Qed.

(** C3: when the pristine flag goes from false to true, the effect issues one
    delete request per file marked uploaded or modified, over all categories
    and in the order [getUploadedFileUUIDs] returns them, and after them one
    [reset] with the file types made from the input value, which brings the
    registry back to its initial state; it remembers the flag, and a further
    run with the flag still true does nothing. *)
Theorem reset_on_pristine (lastPristine : option bool)
    (_fileTypes : list FileType) (s : State) :
  FileManager.truthyFlag lastPristine = false ->
  let r := FileManager.pristineEffect Selectors.getUploadedFileUUIDs
             (Some true) lastPristine _fileTypes s in
  fst r = map DeleteRequest (Selectors.getUploadedFileUUIDs s)
            ++ [Dispatch (Reset _fileTypes)]
  /\ deleteCalls (fst r) = map uuid (markedFiles s)
  /\ length (deleteCalls (fst r)) = length (markedFiles s)
  /\ run s (fst r) = FileManager.initialState _fileTypes
  /\ snd r = Some true
  /\ fst (FileManager.pristineEffect Selectors.getUploadedFileUUIDs
            (Some true) (snd r) _fileTypes (run s (fst r))) = [].
Proof.
  intros Hlast r. unfold r. rewrite pristineEffect_fires by assumption.
  cbn [fst snd].
  assert (Hdel : deleteCalls
                   (flat_map Util.deleteFile (Selectors.getUploadedFileUUIDs s)
                      ++ [Dispatch (Reset _fileTypes)])
                 = map uuid (markedFiles s)).
  { rewrite deleteCalls_deleteFiles, getUploadedFileUUIDs_markedFiles.
    apply app_nil_r. }
  split; [|split; [exact Hdel|split; [|split; [|split]]]].
  - now rewrite deleteFiles_requests.
  - now rewrite Hdel, length_map.
  - now rewrite run_deleteFiles.
  - reflexivity.
  - reflexivity.
Qed.

Lemma reset_on_pristine_witness :
  let s := run (Scenario.registry [Scenario.fileA None])
               [Dispatch (MarkModified 1 "U2" "b.png" (Some "U1"))] in
  let r := FileManager.pristineEffect Selectors.getUploadedFileUUIDs
             (Some true) (Some false) [Scenario.photo [Scenario.fileA None]] s in
  fst r = [DeleteRequest "U2"; Dispatch (Reset [Scenario.photo [Scenario.fileA None]])]
  /\ run s (fst r) = Scenario.registry [Scenario.fileA None].
Proof.
  destruct (reset_on_pristine (Some false) [Scenario.photo [Scenario.fileA None]]
              (run (Scenario.registry [Scenario.fileA None])
                   [Dispatch (MarkModified 1 "U2" "b.png" (Some "U1"))])
              eq_refl) as (H1 & _ & _ & H4 & _).
  exact (conj H1 H4).
Defined.

(** Without the transition the effect only remembers the flag. *)
Lemma pristineEffect_idle (getUploadedFileUUIDs : State -> list string)
    (pristine lastPristine : option bool) (_fileTypes : list FileType) (s : State) :
  FileManager.truthyFlag pristine && negb (FileManager.truthyFlag lastPristine)
  = false ->
  FileManager.pristineEffect getUploadedFileUUIDs pristine lastPristine
                             _fileTypes s
  = ([], pristine).
Proof. intros H. unfold FileManager.pristineEffect. now rewrite H. Qed.

(** ** Propagation of the value *)

(** C7: while the registry is dirty the effect calls [onChange] with the
    derived file list once and dispatches [clearDirty] right after it; the
    state that comes out is not dirty and has the same files and uploads, so
    the effect, run again on it, does nothing. *)
Theorem dirty_propagated_once (getFiles : State -> list string) (s : State)
    (n : nat) :
  isDirty s = true ->
  let t := FileManager.dirtyEffect getFiles s in
  t = [OnChange (getFiles s); Dispatch ClearDirty]
  /\ isDirty (run s t) = false
  /\ fileTypes (run s t) = fileTypes s
  /\ uploads (run s t) = uploads s
  /\ FileManager.dirtyEffect getFiles (run s t) = []
  /\ FileManager.settle getFiles (S n) s = t
  /\ onChangeCalls (FileManager.settle getFiles (S n) s) = [getFiles s].
Proof.
  intros Hdirty t.
  assert (Ht : t = [OnChange (getFiles s); Dispatch ClearDirty])
    by (unfold t, FileManager.dirtyEffect; now rewrite Hdirty).
  assert (Hsettle : FileManager.settle getFiles (S n) s = t).
  { simpl. fold t. rewrite Ht. simpl.
    destruct n; reflexivity. }
  rewrite Hsettle, Ht. repeat split.
Qed.

Lemma dirty_propagated_once_witness :
  let s := run (Scenario.registry []) [Dispatch (MarkUploaded 1 "U2" "b.png")] in
  FileManager.settle Selectors.getFiles 5 s
  = [OnChange ["U2"]; Dispatch ClearDirty]
  /\ onChangeCalls (FileManager.settle Selectors.getFiles 5 s) = [["U2"]].
Proof.
  destruct (dirty_propagated_once Selectors.getFiles
              (run (Scenario.registry []) [Dispatch (MarkUploaded 1 "U2" "b.png")])
              4 eq_refl) as (H1 & _ & _ & _ & _ & H6 & H7).
  split; [exact (eq_trans H6 H1) | exact H7].
Defined.

(** A registry that is not dirty propagates nothing. *)
Lemma clean_propagates_nothing (getFiles : State -> list string) (s : State)
    (n : nat) :
  isDirty s = false -> FileManager.settle getFiles n s = [].
Proof.
  intros H. destruct n; simpl; [reflexivity|].
  unfold FileManager.dirtyEffect. now rewrite H.
Qed.

(** ** Validation on the surrounding form *)

(** C8, as amended: when the component is bound to a form field (its
    [finalFieldName] is a non-empty string), a validation failure is raised
    exactly when an upload is in progress or the validation error is a
    non-empty string; the failure for uploads carries the translation of
    "Upload in progress" and the other one the validation error itself.
    Without a [finalFieldName] no validation field is rendered. *)
Theorem validation_when_bound
    (getValidationError : State -> option string) (isUploading : State -> bool)
    (translate : string -> string) (fieldName : string) (s : State) :
  fieldName <> "" ->
  translate "Upload in progress" <> "" ->
  let fields :=
    FileManager.validationFields getValidationError isUploading translate
                                 (Some fieldName) s in
  FileManager.raisesFailure fields
  = isUploading s || JS.truthy (getValidationError s)
  /\ (isUploading s = true ->
      In (FileManager.mkField
            (String.append "_" (String.append fieldName "_uploading"))
            (translate "Upload in progress")) fields)
  /\ (forall e, getValidationError s = Some e -> e <> "" ->
                In (FileManager.mkField
                      (String.append "_" (String.append fieldName "_invalid")) e)
                   fields)
  /\ FileManager.validationFields getValidationError isUploading translate None s
     = [].
Proof.
  intros Hname Htr fields.
  assert (Hn : JS.truthy (Some fieldName) = true).
  { simpl. apply negb_true_iff. now apply String.eqb_neq. }
  assert (Ht : JS.truthy (Some (translate "Upload in progress")) = true).
  { simpl. apply negb_true_iff. now apply String.eqb_neq. }
  unfold fields, FileManager.validationFields. rewrite Hn. simpl andb.
  split; [|split; [|split]].
  - unfold FileManager.raisesFailure. rewrite existsb_app.
    destruct (isUploading s); simpl.
    + change (negb (String.eqb (translate "Upload in progress") ""))
        with (JS.truthy (Some (translate "Upload in progress"))).
      now rewrite Ht.
    + destruct (getValidationError s) as [e|]; simpl; [|reflexivity].
      destruct (String.eqb e "") eqn:Ee; simpl; [reflexivity|].
      now rewrite Ee.
  - intros Hup. rewrite Hup. apply in_or_app. left. left. reflexivity.
  - intros e He Hne. rewrite He. apply in_or_app. right.
    replace (JS.truthy (Some e)) with true
      by (symmetry; simpl; apply negb_true_iff; now apply String.eqb_neq).
    left. reflexivity.
  - reflexivity.
Qed.

Lemma validation_when_bound_witness :
  FileManager.raisesFailure
    (FileManager.validationFields ValidationScenario.getValidationError
       Selectors.isUploading ValidationScenario.untranslated (Some "files")
       ValidationScenario.uploading) = true
  /\ In (FileManager.mkField "_files_uploading" "Upload in progress")
        (FileManager.validationFields ValidationScenario.getValidationError
           Selectors.isUploading ValidationScenario.untranslated (Some "files")
           ValidationScenario.uploading).
Proof.
  assert (Hname : "files" <> "") by discriminate.
  assert (Htr : ValidationScenario.untranslated "Upload in progress" <> "")
    by discriminate.
  destruct (validation_when_bound ValidationScenario.getValidationError
              Selectors.isUploading ValidationScenario.untranslated "files"
              ValidationScenario.uploading Hname Htr) as (H1 & H2 & _).
  split; [exact H1 | exact (H2 eq_refl)].
Defined.

(** C8 fails as it is worded: with the default [finalFieldName] ([null]) an
    upload in progress raises no validation failure. *)
Lemma unbound_widget_raises_nothing :
  Selectors.isUploading ValidationScenario.uploading = true
  /\ FileManager.raisesFailure
       (FileManager.validationFields ValidationScenario.getValidationError
          Selectors.isUploading ValidationScenario.untranslated None
          ValidationScenario.uploading) = false.
Proof. split; reflexivity. Qed.


(** * Further properties of the file manager component *)

(** ** Drops on categories that take several files *)

Lemma multi_file_nothing_superseded (ft : FileType) :
  allowMultipleFiles ft = true ->
  Dropzone.fileToReplace ft = None /\ Dropzone.fileToDelete ft = None.
Proof.
  intros H. unfold Dropzone.fileToReplace, Dropzone.fileToDelete.
  rewrite H. destruct (files ft); split; reflexivity.
Qed.

(** X1: for a category that takes several files, a drop hands every accepted
    file to the coordinator, in order and in add mode without a uuid to
    replace, and issues no delete request. *)
Theorem multi_file_drop_adds_all (ft : FileType) (url : string) (server : Server)
    (acceptedFiles : list DroppedFile) :
  allowMultipleFiles ft = true ->
  let t := Dropzone.onDropAccepted ft url server acceptedFiles in
  t = fst (Util.uploadFiles markUploaded (id ft) acceptedFiles url None server)
  /\ uploadedFiles t = acceptedFiles
  /\ deleteCalls t = [].
Proof.
  intros Hmulti t.
  destruct (multi_file_nothing_superseded ft Hmulti) as [Hrep Hdel].
  assert (Ht : t = fst (Util.uploadFiles markUploaded (id ft) acceptedFiles url
                          None server)).
  { unfold t. rewrite onDropAccepted_unfold.
    unfold Dropzone.callMode, Dropzone.callReplace, acceptedForUpload.
    rewrite Hrep, Hdel, Hmulti. apply app_nil_r. }
  rewrite Ht. split; [reflexivity|]. split.
  - apply uploadFiles_uploadedFiles.
  - apply uploadFiles_deleteCalls.
Qed.

Lemma multi_file_drop_adds_all_witness :
  let t := Dropzone.onDropAccepted GalleryScenario.gallery "/upload"
             GalleryScenario.storeAll [Scenario.dropB; Scenario.dropC] in
  uploadedFiles t = [Scenario.dropB; Scenario.dropC] /\ deleteCalls t = [].
Proof.
  destruct (multi_file_drop_adds_all GalleryScenario.gallery "/upload"
              GalleryScenario.storeAll [Scenario.dropB; Scenario.dropC] eq_refl)
    as (_ & H2 & H3).
  exact (conj H2 H3).
Defined.

(** ** Drops on categories that take one file *)

(** X2: for a category that takes one file, the accepted files after the
    first play no part: the drop does what a drop of the first file alone
    does. *)
Theorem single_file_drop_ignores_rest (ft : FileType) (url : string)
    (server : Server) (d : DroppedFile) (rest : list DroppedFile) :
  allowMultipleFiles ft = false ->
  Dropzone.onDropAccepted ft url server (d :: rest)
  = Dropzone.onDropAccepted ft url server [d].
Proof.
  intros Hsingle. now rewrite !onDropAccepted_single by assumption.
Qed.

Lemma single_file_drop_ignores_rest_witness :
  Dropzone.onDropAccepted (Scenario.photo []) "/upload" Scenario.server
                          [Scenario.dropB; Scenario.dropC]
  = Dropzone.onDropAccepted (Scenario.photo []) "/upload" Scenario.server
                            [Scenario.dropB].
Proof.
  exact (single_file_drop_ignores_rest (Scenario.photo []) "/upload"
           Scenario.server Scenario.dropB [Scenario.dropC] eq_refl).
Defined.

(** X3: the dropzone shows the icon 'exchange' instead of 'plus circle'
    exactly when a drop supersedes the file the category holds, that is when
    there is a file to replace or a file to delete. *)
Theorem exchange_icon_iff_superseding (ft : FileType) :
  DropzoneOptions.iconName ft
  = match Dropzone.fileToReplace ft, Dropzone.fileToDelete ft with
    | None, None => "plus circle"
    | _, _ => "exchange"
    end.
Proof.
  unfold DropzoneOptions.iconName, Dropzone.showNewFileIcon,
    Dropzone.fileToReplace, Dropzone.fileToDelete.
  destruct (files ft) as [|f fs]; [reflexivity|].
  destruct (allowMultipleFiles ft); [reflexivity|]. simpl.
  destruct (stateIs "added" f); [reflexivity|]. simpl.
  reflexivity.
Qed.

(** X4: [onDropAccepted] called with no file at all on a category whose file
    can be deleted issues the delete request although nothing was uploaded:
    the first entry of an empty result list is [undefined], which is not
    [null]. *)
Theorem empty_drop_still_deletes (ft : FileType) (f : File) (url : string)
    (server : Server) :
  Dropzone.fileToDelete ft = Some f ->
  Dropzone.onDropAccepted ft url server [] = [DeleteRequest (uuid f)].
Proof.
  intros Hdel. rewrite onDropAccepted_unfold, Hdel.
  unfold acceptedForUpload. destruct (negb (allowMultipleFiles ft)); reflexivity.
Qed.

Lemma empty_drop_still_deletes_witness :
  Dropzone.onDropAccepted (Scenario.photo [Scenario.fileA (Some "added")])
                          "/upload" Scenario.server []
  = [DeleteRequest "U1"].
Proof.
  exact (empty_drop_still_deletes
           (Scenario.photo [Scenario.fileA (Some "added")])
           (Scenario.fileA (Some "added")) "/upload" Scenario.server eq_refl).
Defined.

(** X5: a drop issues at most one delete request, and it is the last effect
    of its trace: everything before it is the coordinator's, with all the
    upload requests and no delete request. *)
Theorem delete_comes_last (ft : FileType) (url : string) (server : Server)
    (acceptedFiles : list DroppedFile) :
  let t := Dropzone.onDropAccepted ft url server acceptedFiles in
  exists coordinator,
    t = coordinator ++ map DeleteRequest (deleteCalls t)
    /\ deleteCalls coordinator = []
    /\ uploadedFiles coordinator = uploadedFiles t
    /\ (length (deleteCalls t) <= 1)%nat.
Proof.
  intros t. unfold t.
  exists (fst (Util.uploadFiles (Dropzone.callMode ft) (id ft)
                 (acceptedForUpload ft acceptedFiles) url
                 (Dropzone.callReplace ft) server)).
  rewrite onDropAccepted_deleteCalls, onDropAccepted_uploadedFiles,
    uploadFiles_deleteCalls, uploadFiles_uploadedFiles.
  rewrite onDropAccepted_unfold.
  destruct (Dropzone.fileToDelete ft) as [f|];
    [destruct (Dropzone.firstNotNull _)|]; simpl; repeat split; lia.
Qed.

(** ** What [getFilesFromEvent] does with the files of an event *)

Lemma filterByTemplate_partition (globToRegExp : string -> string -> bool)
    (c : nat) (template : string) (eventFiles : list DroppedFile) :
  let r := Dropzone.filterByTemplate globToRegExp c template eventFiles in
  sublist (snd r) eventFiles
  /\ (length (fst r) + length (snd r) = length eventFiles)%nat
  /\ forall d, In d eventFiles ->
               if Dropzone.passesTemplate globToRegExp template d
               then In d (snd r) /\ ~ In (reportInvalid c d) (fst r)
               else In (reportInvalid c d) (fst r) /\ ~ In d (snd r).
Proof.
  cbv zeta. rewrite filterByTemplate_spec. cbn [fst snd].
  split; [|split].
  - induction eventFiles as [|f rest IH]; simpl; [constructor|].
    destruct (Dropzone.passesTemplate globToRegExp template f);
      now constructor.
  - rewrite length_map.
    induction eventFiles as [|f rest IH]; simpl; [reflexivity|].
    unfold rejectedBy at 1.
    destruct (Dropzone.passesTemplate globToRegExp template f); simpl; lia.
  - intros d Hd.
    destruct (Dropzone.passesTemplate globToRegExp template d) eqn:Hp.
    + split; [apply filter_In; now split|].
      rewrite in_map_iff. intros (x & Hx & Hin).
      apply filter_In in Hin as [_ Hrej]. unfold rejectedBy in Hrej.
      unfold reportInvalid in Hx. injection Hx as Hname.
      unfold Dropzone.passesTemplate in *. rewrite Hname, Hp in Hrej.
      discriminate.
    + split.
      * apply in_map. apply filter_In. split; [assumption|].
        unfold rejectedBy. now rewrite Hp.
      * rewrite filter_In. intros [_ H]. congruence.
Qed.

(** X6: [getFilesFromEvent] loses no file silently: the files it hands on
    are the event's in their order, every file of the event is either handed
    on or reported as invalid and never both, and reports and files handed on
    add up to the files of the event. *)
Theorem getFilesFromEvent_partition (globToRegExp : string -> string -> bool)
    (ft : FileType) (eventFiles : list DroppedFile) :
  let r := Dropzone.getFilesFromEvent globToRegExp ft eventFiles in
  sublist (snd r) eventFiles
  /\ (length (fst r) + length (snd r) = length eventFiles)%nat
  /\ forall d, In d eventFiles ->
               (In d (snd r) /\ ~ In (reportInvalid (id ft) d) (fst r))
               \/ (In (reportInvalid (id ft) d) (fst r) /\ ~ In d (snd r)).
Proof.
  cbv zeta. unfold Dropzone.getFilesFromEvent.
  destruct (filenameTemplate ft) as [template|].
  - destruct (JS.truthy (Some template)).
    + destruct (filterByTemplate_partition globToRegExp (id ft) template eventFiles)
        as (H1 & H2 & H3).
      split; [exact H1|]. split; [exact H2|].
      intros d Hd. specialize (H3 d Hd).
      destruct (Dropzone.passesTemplate globToRegExp template d); [left|right];
        exact H3.
    + simpl. split; [reflexivity|]. split; [reflexivity|].
      intros d Hd. left. split; [assumption|intros []].
  - simpl. split; [reflexivity|]. split; [reflexivity|].
    intros d Hd. left. split; [assumption|intros []].
Qed.

Lemma getFilesFromEvent_partition_witness :
  let r := Dropzone.getFilesFromEvent TemplateScenario.literalGlob
             TemplateScenario.report
             [TemplateScenario.notes; TemplateScenario.good] in
  (length (fst r) + length (snd r) = 2)%nat
  /\ In (reportInvalid 7 TemplateScenario.notes) (fst r)
  /\ ~ In TemplateScenario.notes (snd r).
Proof.
  destruct (getFilesFromEvent_partition TemplateScenario.literalGlob
              TemplateScenario.report
              [TemplateScenario.notes; TemplateScenario.good])
    as (_ & H2 & H3).
  split; [exact H2|].
  destruct (H3 TemplateScenario.notes (or_introl eq_refl)) as [[Hk _]|H].
  - exfalso. vm_compute in Hk. destruct Hk as [Hk|[]]. discriminate Hk.
  - exact H.
Defined.

(** X7: whenever [getFilesFromEvent] reports a file as invalid, the category
    has a non-empty filename template and its heading shows the popup with
    the expected format. *)
Theorem reports_imply_template_info (globToRegExp : string -> string -> bool)
    (ft : FileType) (eventFiles : list DroppedFile) :
  fst (Dropzone.getFilesFromEvent globToRegExp ft eventFiles) <> [] ->
  FileTypeView.showsTemplateInfo ft = true
  /\ JS.truthy (filenameTemplate ft) = true.
Proof.
  unfold Dropzone.getFilesFromEvent, FileTypeView.showsTemplateInfo.
  destruct (filenameTemplate ft) as [template|]; [|intros H; now elim H].
  destruct (JS.truthy (Some template)) eqn:E; [|intros H; now elim H].
  intros _. split; reflexivity.
Qed.

Lemma reports_imply_template_info_witness :
  FileTypeView.showsTemplateInfo TemplateScenario.report = true
  /\ JS.truthy (filenameTemplate TemplateScenario.report) = true.
Proof.
  apply (reports_imply_template_info TemplateScenario.literalGlob
           TemplateScenario.report [TemplateScenario.notes]).
  vm_compute. discriminate.
Defined.

(** ** The [accept] option *)

Lemma splitOn_free (c : ascii) (x : string) :
  JS.occurs c x = false -> splitOn c x = [x].
Proof.
  induction x as [|a r IH]; simpl; [reflexivity|].
  destruct (Ascii.eqb a c); [discriminate|].
  intros H. now rewrite IH.
Qed.

Lemma splitOn_piece (c : ascii) (x rest : string) :
  JS.occurs c x = false ->
  splitOn c (String.append x (String c rest)) = x :: splitOn c rest.
Proof.
  induction x as [|a r IH]; intros H.
  - change (splitOn c (String c rest) = EmptyString :: splitOn c rest).
    simpl. now rewrite Ascii.eqb_refl.
  - simpl in H. destruct (Ascii.eqb a c) eqn:E; [discriminate|].
    change (splitOn c (String a (String.append r (String c rest)))
            = String a r :: splitOn c rest).
    simpl. now rewrite E, IH.
Qed.

Lemma splitOn_join (c : ascii) (x : string) (l : list string) :
  (forall y, In y (x :: l) -> JS.occurs c y = false) ->
  splitOn c (JSArray.join (String c EmptyString) (x :: l)) = x :: l.
Proof.
  revert x. induction l as [|y r IH]; intros x H.
  - simpl. apply splitOn_free, H. now left.
  - change (splitOn c (String.append x (String c (JSArray.join (String c EmptyString) (y :: r))))
            = x :: y :: r).
    rewrite splitOn_piece by (apply H; now left).
    f_equal. apply IH. intros z Hz. apply H. now right.
Qed.

(** X8: when no extension holds a comma, the [accept] string handed to the
    dropzone reads back, split at its commas, as the extensions of the
    category with a dot before each, one entry per extension and in order;
    it is empty exactly when the component shows
    '(no extension restrictions)'. *)
Theorem accept_lists_extensions (ft : FileType) :
  (forall ext, In ext (extensions ft) -> JS.occurs "," ext = false) ->
  splitOn "," (DropzoneOptions.accept ft)
  = match extensions ft with
    | [] => [EmptyString]
    | exts => map (String.append ".") exts
    end
  /\ (DropzoneOptions.accept ft = EmptyString
      <-> FileTypeView.extensionsBox ft = FileTypeView.NoRestrictions).
Proof.
  intros Hfree. unfold DropzoneOptions.accept, FileTypeView.extensionsBox.
  destruct (extensions ft) as [|e r]; [split; [reflexivity|tauto]|].
  split.
  - change (map (fun ext => String.append "." ext) (e :: r))
      with (String.append "." e :: map (String.append ".") r).
    apply splitOn_join. intros y Hy.
    change (String.append "." e :: map (String.append ".") r)
      with (map (String.append ".") (e :: r)) in Hy.
    apply in_map_iff in Hy as (ext & <- & Hin).
    change (JS.occurs "," (String "." ext) = false). simpl. now apply Hfree.
  - split; [|discriminate].
    simpl. destruct (map _ r); discriminate.
Qed.

Lemma accept_lists_extensions_witness :
  splitOn "," (DropzoneOptions.accept (Scenario.photo [])) = [".jpg"; ".png"].
Proof.
  apply (accept_lists_extensions (Scenario.photo [])).
  intros ext [<-|[<-|[]]]; reflexivity.
Defined.

(** ** The reset effect over a sequence of renders *)

Lemma resetCount_app (t1 t2 : list Effect) :
  resetCount (t1 ++ t2) = (resetCount t1 + resetCount t2)%nat.
Proof. unfold resetCount. now rewrite List.filter_app, length_app. Qed.

Lemma resetCount_deleteFiles (us : list string) :
  resetCount (flat_map Util.deleteFile us) = O.
Proof. induction us as [|u r IH]; simpl; [reflexivity|exact IH]. Qed.

Lemma pristineEffect_resetCount (getUploadedFileUUIDs : State -> list string)
    (pristine lastPristine : option bool) (_fileTypes : list FileType) (s : State) :
  resetCount (fst (FileManager.pristineEffect getUploadedFileUUIDs pristine
                     lastPristine _fileTypes s))
  = if FileManager.truthyFlag pristine && negb (FileManager.truthyFlag lastPristine)
    then 1%nat else O.
Proof.
  unfold FileManager.pristineEffect.
  destruct (FileManager.truthyFlag pristine
            && negb (FileManager.truthyFlag lastPristine)); [|reflexivity].
  cbn [fst]. now rewrite resetCount_app, resetCount_deleteFiles.
Qed.

(** X9: over any sequence of renders, whatever the states and the selector,
    the effect dispatches one [reset] for each time the pristine flag goes
    from not true ([false] or [null]) to [true], and none else; while the flag
    never rises the effect does nothing at all, in particular on mount, where
    the remembered flag is the flag itself. *)
Theorem one_reset_per_rising_edge
    (getUploadedFileUUIDs : State -> list string) (_fileTypes : list FileType)
    (lastPristine : option bool) (renders : list (option bool * State)) :
  resetCount (pristineRuns getUploadedFileUUIDs _fileTypes lastPristine renders)
  = risingEdges lastPristine (map fst renders)
  /\ (risingEdges lastPristine (map fst renders) = O ->
      pristineRuns getUploadedFileUUIDs _fileTypes lastPristine renders = [])
  /\ forall s, FileManager.pristineEffect getUploadedFileUUIDs lastPristine
                 lastPristine _fileTypes s = ([], lastPristine).
Proof.
  split; [|split].
  - revert lastPristine.
    induction renders as [|[p s] rest IH]; intros lastPristine; [reflexivity|].
    cbn [pristineRuns map fst risingEdges].
    rewrite resetCount_app, pristineEffect_resetCount. f_equal. apply IH.
  - revert lastPristine.
    induction renders as [|[p s] rest IH]; intros lastPristine; [reflexivity|].
    cbn [pristineRuns map fst risingEdges]. intros H.
    unfold FileManager.pristineEffect at 1 2. cbn [fst snd].
    destruct (FileManager.truthyFlag p
              && negb (FileManager.truthyFlag lastPristine)); [discriminate|].
    apply IH. exact H.
  - intros s. apply pristineEffect_idle.
    destruct lastPristine as [[|]|]; reflexivity.
Qed.

Lemma one_reset_per_rising_edge_witness :
  let s := Scenario.registry [Scenario.fileA (Some "added")] in
  resetCount
    (pristineRuns Selectors.getUploadedFileUUIDs [Scenario.photo []] (Some true)
       [(Some true, s); (Some false, s); (Some true, s); (Some true, s)]) = 1%nat
  /\ pristineRuns Selectors.getUploadedFileUUIDs [Scenario.photo []] None
       [(None, s); (Some false, s)] = [].
Proof.
  split.
  - exact (proj1 (one_reset_per_rising_edge Selectors.getUploadedFileUUIDs
                    [Scenario.photo []] (Some true)
                    [(Some true, Scenario.registry [Scenario.fileA (Some "added")]);
                     (Some false, Scenario.registry [Scenario.fileA (Some "added")]);
                     (Some true, Scenario.registry [Scenario.fileA (Some "added")]);
                     (Some true, Scenario.registry [Scenario.fileA (Some "added")])])).
  - exact (proj1 (proj2 (one_reset_per_rising_edge Selectors.getUploadedFileUUIDs
                           [Scenario.photo []] None
                           [(None, Scenario.registry [Scenario.fileA (Some "added")]);
                            (Some false, Scenario.registry [Scenario.fileA (Some "added")])]))
                 eq_refl).
Defined.

(** ** The names of the validation-only fields *)

Lemma append_cancel_l (a x y : string) :
  String.append a x = String.append a y -> x = y.
Proof.
  induction a as [|c r IH]; intros H; [exact H|].
  change (String c (String.append r x) = String c (String.append r y)) in H.
  injection H as H. now apply IH.
Qed.

Lemma append_length (a b : string) :
  String.length (String.append a b) = (String.length a + String.length b)%nat.
Proof.
  induction a as [|c r IH]; [reflexivity|].
  change (S (String.length (String.append r b))
          = S (String.length r + String.length b)).
  now rewrite IH.
Qed.

(** X10: the validation-only fields never take the name of the form field
    itself, and the two of them never share a name, whatever the name of the
    form field and the state. *)
Theorem validation_field_names_apart
    (getValidationError : State -> option string) (isUploading : State -> bool)
    (translate : string -> string) (finalFieldName : option string) (s : State) :
  let fields :=
    FileManager.validationFields getValidationError isUploading translate
                                 finalFieldName s in
  List.NoDup (map FileManager.fieldName fields)
  /\ (length fields <= 2)%nat
  /\ forall f, In f fields -> Some (FileManager.fieldName f) <> finalFieldName.
Proof.
  intros fields.
  set (n := default "" finalFieldName).
  set (up := FileManager.mkField
               (String.append "_" (String.append n "_uploading"))
               (translate "Upload in progress")).
  set (inv := FileManager.mkField
                (String.append "_" (String.append n "_invalid"))
                (default "" (getValidationError s))).
  assert (Hne : FileManager.fieldName up <> FileManager.fieldName inv).
  { simpl. intros H. apply append_cancel_l in H. apply append_cancel_l in H.
    discriminate H. }
  assert (Hown : forall f, f = up \/ f = inv ->
                           Some (FileManager.fieldName f) <> finalFieldName).
  { intros f Hf E. destruct finalFieldName as [m|]; [|discriminate].
    injection E as E. apply (f_equal String.length) in E.
    destruct Hf as [-> | ->]; unfold up, inv in E;
      cbn [FileManager.fieldName] in E; rewrite !append_length in E;
      unfold n in E; simpl in E; lia. }
  assert (Hcases : fields = [] \/ fields = [up] \/ fields = [inv]
                   \/ fields = [up; inv]).
  { unfold fields, FileManager.validationFields. fold n. fold up. fold inv.
    destruct (JS.truthy finalFieldName && isUploading s),
      (JS.truthy finalFieldName && JS.truthy (getValidationError s)); simpl; tauto. }
  destruct Hcases as [-> | [-> | [-> | ->]]]; simpl.
  - repeat split; [constructor | lia | intros f []].
  - repeat split; [repeat constructor; intros [] | lia |].
    intros f [<-|[]]. apply Hown. now left.
  - repeat split; [repeat constructor; intros [] | lia |].
    intros f [<-|[]]. apply Hown. now right.
  - repeat split; [| lia |].
    + constructor; [intros [H|[]]; now apply Hne | repeat constructor; intros []].
    + intros f [<-|[<-|[]]]; apply Hown; tauto.
Qed.

Lemma validation_field_names_apart_witness :
  List.NoDup
    (map FileManager.fieldName
       (FileManager.validationFields ValidationScenario.getValidationError
          Selectors.isUploading ValidationScenario.untranslated (Some "files")
          ValidationScenario.uploading)).
Proof.
  exact (proj1 (validation_field_names_apart
                  ValidationScenario.getValidationError
                  Selectors.isUploading ValidationScenario.untranslated
                  (Some "files") ValidationScenario.uploading)).
Defined.


(** * Properties of the date navigator *)

Lemma findIndexFrom_first {A : Type} (p : A -> bool) (pre : list A) (a : A)
    (rest : list A) (i : Z) :
  (forall x, In x pre -> p x = false) ->
  p a = true ->
  JSArray.findIndexFrom p (pre ++ a :: rest) i = i + Z.of_nat (length pre).
Proof.
  revert i. induction pre as [|x r IH]; intros i Hpre Ha; simpl.
  - rewrite Ha. lia.
  - rewrite (Hpre x) by now left.
    rewrite IH by (intros; (apply Hpre; now right) || assumption). lia.
Qed.

Lemma findIndexFrom_none {A : Type} (p : A -> bool) (l : list A) (i : Z) :
  (forall x, In x l -> p x = false) -> JSArray.findIndexFrom p l i = -1.
Proof.
  revert i. induction l as [|x r IH]; intros i H; simpl; [reflexivity|].
  rewrite (H x) by now left. apply IH. intros y Hy. apply H. now right.
Qed.

Lemma item_after {A : Type} (pre : list A) (a : A) (rest : list A) :
  JSArray.item (pre ++ a :: rest) (Z.of_nat (length pre) + 1) = hd_error rest.
Proof.
  unfold JSArray.item.
  replace (Z.of_nat (length pre) + 1 <? 0) with false
    by (symmetry; apply Z.ltb_ge; lia).
  replace (Z.to_nat (Z.of_nat (length pre) + 1)) with (length pre + 1)%nat by lia.
  induction pre as [|x r IH]; simpl; [now destruct rest|exact IH].
Qed.

Lemma item_before {A : Type} (pre : list A) (a : A) (rest : list A) :
  JSArray.item (pre ++ a :: rest) (Z.of_nat (length pre) + -1)
  = DateNavigator.lastItem pre.
Proof.
  unfold JSArray.item. destruct pre as [|x r]; [reflexivity|].
  replace (Z.of_nat (length (x :: r)) + -1 <? 0) with false
    by (symmetry; apply Z.ltb_ge; simpl length; lia).
  replace (Z.to_nat (Z.of_nat (length (x :: r)) + -1)) with (length r)
    by (simpl length; lia).
  revert x. induction r as [|y r' IH]; intros x; [reflexivity|].
  simpl. exact (IH y).
Qed.

Section NavigatorFacts.

Variable Moment : Type.
Variable toMoment : option string -> option string -> Moment.
Variable startOf : string -> Moment -> Moment.
Variable addUnits : Z -> string -> Moment -> Moment.
Variable isSame : Moment -> Moment -> bool.
Variable isDateWithinRange : Moment -> list string -> bool.

(** X11: [setDateWithMode] calls [onDateChange] at most once; forced, it
    calls it with the rounded date; not forced, it stays silent for a date
    that is already the start of its period, so always in a mode other than
    'weeks' and 'months' (a date being the same as itself). *)
Theorem setDateWithMode_only_on_change (date : Moment) (m : string)
    (force : bool) :
  (forall d, isSame d d = true) ->
  (length (DateNavigator.setDateWithMode startOf isSame date m force) <= 1)%nat
  /\ DateNavigator.setDateWithMode startOf isSame date m true
     = [DateNavigator.DateChange (DateNavigator.roundToMode startOf m date)]
  /\ (DateNavigator.roundToMode startOf m date = date ->
      DateNavigator.setDateWithMode startOf isSame date m false = [])
  /\ (String.eqb m "weeks" || String.eqb m "months" = false ->
      DateNavigator.setDateWithMode startOf isSame date m false = []).
Proof.
  intros Hrefl.
  assert (Hsilent : DateNavigator.roundToMode startOf m date = date ->
                    DateNavigator.setDateWithMode startOf isSame date m false = []).
  { intros H. unfold DateNavigator.setDateWithMode. now rewrite H, Hrefl. }
  split; [|split; [reflexivity|split; [exact Hsilent|]]].
  - unfold DateNavigator.setDateWithMode.
    destruct (force || negb _); simpl; lia.
  - intros H. apply Hsilent. unfold DateNavigator.roundToMode.
    apply orb_false_elim in H as [-> ->]. reflexivity.
Qed.

(** X12: [onSelect] acts on exactly the dates the calendar does not disable:
    for such a date it calls [onDateChange] once, with the date rounded to
    the mode (twice over, in [onSelect] and in [setDateWithMode]); for a
    disabled date it does nothing. *)
Theorem onSelect_iff_enabled (props : DateNavigator.Props) (date : Moment) :
  DateNavigator.onSelect startOf isSame isDateWithinRange props date
  = if DateNavigator.calendarDisabledDate isDateWithinRange props (Some date)
    then []
    else [DateNavigator.DateChange
            (DateNavigator.roundToMode startOf (DateNavigator.mode props)
               (DateNavigator.roundToMode startOf (DateNavigator.mode props) date))].
Proof.
  unfold DateNavigator.onSelect, DateNavigator.calendarDisabledDate,
    DateNavigator.setDateWithMode.
  destruct (Nat.eqb (length (DateNavigator.dateRange props)) 0); simpl;
    [reflexivity|].
  destruct (isDateWithinRange date (DateNavigator.dateRange props)); reflexivity.
Qed.

(** X13: in mode 'days' with a date range, the arrows step through the
    range from the first occurrence of the selected date: 'next' goes to the
    date after it and 'prev' to the date before it.  At the ends there is no
    such date, and [onDateChange] is still called, with [toMoment] of
    [undefined]. *)
Theorem arrows_step_through_range (props : DateNavigator.Props)
    (pre rest : list string) :
  DateNavigator.mode props = "days" ->
  DateNavigator.dateRange props = pre ++ DateNavigator.selectedDate props :: rest ->
  ~ In (DateNavigator.selectedDate props) pre ->
  DateNavigator.changeSelectedDate toMoment addUnits props "next"
  = [DateNavigator.DateChange (toMoment (hd_error rest) None)]
  /\ DateNavigator.changeSelectedDate toMoment addUnits props "prev"
     = [DateNavigator.DateChange (toMoment (DateNavigator.lastItem pre) None)].
Proof.
  intros Hmode Hrange Hfirst.
  assert (Hidx : JSArray.findIndex
                   (fun dt => String.eqb dt (DateNavigator.selectedDate props))
                   (DateNavigator.dateRange props)
                 = Z.of_nat (length pre)).
  { unfold JSArray.findIndex. rewrite Hrange, findIndexFrom_first.
    - lia.
    - intros x Hx. apply String.eqb_neq. intros ->. contradiction.
    - apply String.eqb_refl. }
  unfold DateNavigator.changeSelectedDate.
  rewrite Hmode, Hidx, Hrange, length_app. simpl length.
  replace (Nat.eqb (length pre + S (length rest)) 0) with false
    by (symmetry; apply Nat.eqb_neq; lia).
  simpl. now rewrite item_after, item_before.
Qed.

(** X14: in mode 'days' with a date range that does not hold the selected
    date, 'next' goes to the first date of the range and 'prev' calls
    [onDateChange] with [toMoment] of [undefined]. *)
Theorem arrows_from_outside_range (props : DateNavigator.Props) :
  DateNavigator.mode props = "days" ->
  DateNavigator.dateRange props <> [] ->
  ~ In (DateNavigator.selectedDate props) (DateNavigator.dateRange props) ->
  DateNavigator.changeSelectedDate toMoment addUnits props "next"
  = [DateNavigator.DateChange
       (toMoment (hd_error (DateNavigator.dateRange props)) None)]
  /\ DateNavigator.changeSelectedDate toMoment addUnits props "prev"
     = [DateNavigator.DateChange (toMoment None None)].
Proof.
  intros Hmode Hne Hout.
  assert (Hidx : JSArray.findIndex
                   (fun dt => String.eqb dt (DateNavigator.selectedDate props))
                   (DateNavigator.dateRange props) = -1).
  { apply findIndexFrom_none. intros x Hx. apply String.eqb_neq.
    intros ->. contradiction. }
  unfold DateNavigator.changeSelectedDate. rewrite Hmode, Hidx.
  destruct (DateNavigator.dateRange props) as [|a r]; [contradiction|].
  split; reflexivity.
Qed.

(** X15: [changeSelectedDate] calls [onDateChange] exactly once whatever
    the props, and every direction other than 'next' steps backwards; without
    a date range, or in a mode other than 'days', it moves the selected date
    by one unit of the mode. *)
Theorem arrows_always_navigate (props : DateNavigator.Props) (direction : string) :
  length (DateNavigator.changeSelectedDate toMoment addUnits props direction)
  = 1%nat
  /\ (String.eqb direction "next" = false ->
      DateNavigator.changeSelectedDate toMoment addUnits props direction
      = DateNavigator.changeSelectedDate toMoment addUnits props "prev")
  /\ (Nat.eqb (length (DateNavigator.dateRange props)) 0
      || negb (String.eqb (DateNavigator.mode props) "days") = true ->
      DateNavigator.changeSelectedDate toMoment addUnits props direction
      = [DateNavigator.DateChange
           (addUnits (if String.eqb direction "next" then 1 else -1)
                     (DateNavigator.mode props)
                     (DateNavigator.selectedMoment toMoment props))]).
Proof.
  unfold DateNavigator.changeSelectedDate. split; [|split].
  - destruct (_ || _); reflexivity.
  - intros H. rewrite H. reflexivity.
  - intros H. now rewrite H.
Qed.

(** X16: a change of mode calls [onModeChange] first and exactly once, and
    after it [onDateChange] at most once, with the selected date rounded to
    the new mode; an update of the component whose mode and selected date
    are those of the previous props calls nothing, whatever else changed,
    and any other update does what [setDateWithMode] does for the new
    props. *)
Theorem mode_change_then_date (props : DateNavigator.Props) (m : string) :
  (exists dates,
      DateNavigator.handleModeChange toMoment startOf isSame props m
      = DateNavigator.ModeChange m :: dates
      /\ (length dates <= 1)%nat
      /\ forall c, In c dates ->
                   c = DateNavigator.DateChange
                         (DateNavigator.roundToMode startOf m
                            (DateNavigator.selectedMoment toMoment props)))
  /\ (forall prevProps,
        DateNavigator.mode prevProps = DateNavigator.mode props ->
        DateNavigator.selectedDate prevProps = DateNavigator.selectedDate props ->
        DateNavigator.componentDidUpdate toMoment startOf isSame prevProps props
        = [])
  /\ (forall prevProps,
        DateNavigator.mode prevProps <> DateNavigator.mode props
        \/ DateNavigator.selectedDate prevProps <> DateNavigator.selectedDate props ->
        DateNavigator.componentDidUpdate toMoment startOf isSame prevProps props
        = DateNavigator.setDateWithMode startOf isSame
            (DateNavigator.selectedMoment toMoment props)
            (DateNavigator.mode props) false).
Proof.
  split; [|split].
  - unfold DateNavigator.handleModeChange, DateNavigator.setDateWithMode.
    destruct (false || negb _).
    + eexists. split; [reflexivity|]. split; [simpl; lia|].
      intros c [<-|[]]. reflexivity.
    + exists []. split; [reflexivity|]. split; [simpl; lia|].
      intros c [].
  - intros prevProps Hmode Hdate. unfold DateNavigator.componentDidUpdate.
    now rewrite Hmode, Hdate, !String.eqb_refl.
  - intros prevProps Hdiff. unfold DateNavigator.componentDidUpdate.
    replace (negb (String.eqb (DateNavigator.mode prevProps)
                              (DateNavigator.mode props))
             || negb (String.eqb (DateNavigator.selectedDate prevProps)
                                 (DateNavigator.selectedDate props)))
      with true; [reflexivity|].
    symmetry. apply orb_true_iff.
    destruct Hdiff as [H|H]; [left|right];
      apply negb_true_iff; now apply String.eqb_neq.
Qed.

End NavigatorFacts.

(** X17: the mode switcher highlights at most one button, exactly one when
    the mode is 'days', 'weeks' or 'months'; without a mode it shows no
    button at all. *)
Theorem mode_switcher_highlights_one (translate : string -> string)
    (props : DateNavigator.Props) (disabled : bool) :
  let buttons := DateNavigator.renderModeSwitcher translate props disabled in
  length (List.filter DateNavigator.primary buttons)
  = (if existsb (String.eqb (DateNavigator.mode props)) ["days"; "weeks"; "months"]
     then 1%nat else O)
  /\ (forall b, In b buttons ->
                DateNavigator.primary b = true ->
                DateNavigator.switchesTo b = DateNavigator.mode props)
  /\ (buttons = [] <-> DateNavigator.mode props = EmptyString).
Proof.
  intros buttons. unfold buttons, DateNavigator.renderModeSwitcher. simpl JS.truthy.
  destruct (String.eqb (DateNavigator.mode props) "") eqn:Eempty.
  - apply String.eqb_eq in Eempty. rewrite Eempty. simpl.
    repeat split; intros; try tauto; contradiction.
  - simpl negb. cbv iota.
    assert (Hne : DateNavigator.mode props <> "") by now apply String.eqb_neq.
    split; [|split].
    + simpl.
      destruct (String.eqb (DateNavigator.mode props) "days") eqn:Ed.
      * apply String.eqb_eq in Ed. rewrite Ed. reflexivity.
      * destruct (String.eqb (DateNavigator.mode props) "weeks") eqn:Ew.
        -- apply String.eqb_eq in Ew. rewrite Ew. reflexivity.
        -- destruct (String.eqb (DateNavigator.mode props) "months");
             reflexivity.
    + intros b [<-|[<-|[<-|[]]]]; simpl; intros H;
        apply String.eqb_eq in H; now rewrite H.
    + split; [discriminate|contradiction].
Qed.

Lemma setDateWithMode_only_on_change_witness :
  DateNavigator.setDateWithMode DayMoment.startOf DayMoment.isSame 14 "weeks" false
  = []
  /\ DateNavigator.setDateWithMode DayMoment.startOf DayMoment.isSame 15 "days" false
     = []
  /\ DateNavigator.setDateWithMode DayMoment.startOf DayMoment.isSame 15 "weeks" true
     = [DateNavigator.DateChange 14].
Proof.
  destruct (setDateWithMode_only_on_change Z DayMoment.startOf DayMoment.isSame
              14 "weeks" false Z.eqb_refl) as (_ & _ & H3 & _).
  destruct (setDateWithMode_only_on_change Z DayMoment.startOf DayMoment.isSame
              15 "days" false Z.eqb_refl) as (_ & _ & _ & H4).
  destruct (setDateWithMode_only_on_change Z DayMoment.startOf DayMoment.isSame
              15 "weeks" false Z.eqb_refl) as (_ & H2 & _ & _).
  exact (conj (H3 eq_refl) (conj (H4 eq_refl) H2)).
Defined.

Lemma arrows_step_through_range_witness :
  DateNavigator.changeSelectedDate NavigatorScenario.asRead
    NavigatorScenario.unmoved NavigatorScenario.january "next"
  = [DateNavigator.DateChange (Some "2020-01-03")]
  /\ DateNavigator.changeSelectedDate NavigatorScenario.asRead
       NavigatorScenario.unmoved NavigatorScenario.january "prev"
     = [DateNavigator.DateChange (Some "2020-01-01")].
Proof.
  apply (arrows_step_through_range (option string) NavigatorScenario.asRead
           NavigatorScenario.unmoved NavigatorScenario.january
           ["2020-01-01"] ["2020-01-03"]).
  - reflexivity.
  - reflexivity.
  - intros [H|[]]. discriminate H.
Defined.

Lemma arrows_from_outside_range_witness :
  DateNavigator.changeSelectedDate NavigatorScenario.asRead
    NavigatorScenario.unmoved NavigatorScenario.outside "next"
  = [DateNavigator.DateChange (Some "2020-01-01")]
  /\ DateNavigator.changeSelectedDate NavigatorScenario.asRead
       NavigatorScenario.unmoved NavigatorScenario.outside "prev"
     = [DateNavigator.DateChange None].
Proof.
  apply (arrows_from_outside_range (option string) NavigatorScenario.asRead
           NavigatorScenario.unmoved NavigatorScenario.outside).
  - reflexivity.
  - discriminate.
  - intros [H|[H|[H|[]]]]; discriminate H.
Defined.


(** * Properties of the single-room timeline *)

Section TimelineFacts.

Variable Item : Type.
Variable Room : Type.
Variable formatDay : string -> string.

(** X18: the timeline is rendered only for a loaded, non-empty availability
    (the dimmer otherwise); it has one row per day of the date range, in
    order, keyed by the day and labelled with the formatted day, every row
    with the room and the same unbookable hours; its height is fixed to
    '70vh' exactly when there is more than one day. *)
Theorem timeline_rows_follow_days (r : Room)
    (av : SingleRoomTimeline.Availability Item) (loading : bool) :
  @SingleRoomTimeline.render Item Room formatDay r None loading
  = SingleRoomTimeline.Dimmer
  /\ SingleRoomTimeline.render formatDay r (Some av) true
     = SingleRoomTimeline.Dimmer
  /\ exists rows,
       SingleRoomTimeline.render formatDay r (Some av) false
       = SingleRoomTimeline.Timeline rows
           (if (2 <=? length (SingleRoomTimeline.dateRange av))%nat
            then Some "70vh" else None)
       /\ map (SingleRoomTimeline.key) rows
          = SingleRoomTimeline.dateRange av
       /\ map (SingleRoomTimeline.label) rows
          = map formatDay (SingleRoomTimeline.dateRange av)
       /\ Forall
            (fun row =>
               SingleRoomTimeline.room row = r
               /\ SingleRoomTimeline.conflictIndicator row = true
               /\ SingleRoomTimeline.rowUnbookableHours
                    (SingleRoomTimeline.rowAvailability row)
                  = SingleRoomTimeline.orEmpty
                      (SingleRoomTimeline.unbookableHours av))
            rows.
Proof.
  split; [reflexivity|]. split; [reflexivity|].
  exists (map (fun day => SingleRoomTimeline.getRowSerializer formatDay r day av)
              (SingleRoomTimeline.dateRange av)).
  split; [|split; [|split]].
  - unfold SingleRoomTimeline.render, SingleRoomTimeline.renderRoomTimeline.
    simpl negb. cbv iota. now rewrite length_map.
  - rewrite map_map. simpl. apply map_id.
  - rewrite map_map. reflexivity.
  - apply List.Forall_forall. intros row Hrow.
    apply in_map_iff in Hrow as (day & <- & _). repeat split.
Qed.

(** X19: in the row of any day, every candidate and every conflicting
    candidate is marked not bookable, whatever it said before, and they are
    the candidates of that day, none added, none dropped, in their order. *)
Theorem row_candidates_not_bookable (r : Room) (day : string)
    (av : SingleRoomTimeline.Availability Item) :
  let row := SingleRoomTimeline.rowAvailability
               (SingleRoomTimeline.getRowSerializer formatDay r day av) in
  Forall (fun c => SingleRoomTimeline.bookable c = Some false)
         (SingleRoomTimeline.rowCandidates row
            ++ SingleRoomTimeline.rowConflictingCandidates row)
  /\ map SingleRoomTimeline.occurrence (SingleRoomTimeline.rowCandidates row)
     = map SingleRoomTimeline.occurrence
           (SingleRoomTimeline.orEmpty (SingleRoomTimeline.candidates av !! day))
  /\ map SingleRoomTimeline.occurrence
         (SingleRoomTimeline.rowConflictingCandidates row)
     = map SingleRoomTimeline.occurrence
           (SingleRoomTimeline.orEmpty
              (SingleRoomTimeline.conflictingCandidates av !! day)).
Proof.
  cbv zeta. simpl. split; [|split].
  - apply List.Forall_forall. intros c Hc. apply in_app_or in Hc.
    destruct Hc as [Hc|Hc]; apply in_map_iff in Hc as (c0 & <- & _);
      reflexivity.
  - now rewrite map_map.
  - now rewrite map_map.
Qed.

(** X20: a day of the date range that the availability has no entry for
    still gets its row, with every list empty but the unbookable hours, which
    do not go by day. *)
Theorem row_of_missing_day (r : Room) (day : string)
    (av : SingleRoomTimeline.Availability Item) :
  SingleRoomTimeline.candidates av !! day = None ->
  SingleRoomTimeline.conflictingCandidates av !! day = None ->
  SingleRoomTimeline.preBookings av !! day = None ->
  SingleRoomTimeline.bookings av !! day = None ->
  SingleRoomTimeline.conflicts av !! day = None ->
  SingleRoomTimeline.preConflicts av !! day = None ->
  SingleRoomTimeline.nonbookablePeriods av !! day = None ->
  SingleRoomTimeline.blockings av !! day = None ->
  SingleRoomTimeline.rowAvailability
    (SingleRoomTimeline.getRowSerializer formatDay r day av)
  = SingleRoomTimeline.mkRowAvailability [] [] [] [] [] [] []
      (SingleRoomTimeline.orEmpty (SingleRoomTimeline.unbookableHours av)) [].
Proof.
  intros H1 H2 H3 H4 H5 H6 H7 H8.
  unfold SingleRoomTimeline.getRowSerializer. simpl.
  now rewrite H1, H2, H3, H4, H5, H6, H7, H8.
Qed.

End TimelineFacts.

Lemma row_of_missing_day_witness :
  SingleRoomTimeline.rowAvailability
    (SingleRoomTimeline.getRowSerializer TimelineScenario.formatDay "R1"
       "2020-01-02" TimelineScenario.availability)
  = SingleRoomTimeline.mkRowAvailability [] [] [] [] [] [] [] ["00:00-06:00"] [].
Proof.
  exact (row_of_missing_day string string TimelineScenario.formatDay "R1"
           "2020-01-02" TimelineScenario.availability
           eq_refl eq_refl eq_refl eq_refl eq_refl eq_refl eq_refl eq_refl).
Defined.

Example row_of_present_day :
  SingleRoomTimeline.rowCandidates
    (SingleRoomTimeline.rowAvailability
       (SingleRoomTimeline.getRowSerializer TimelineScenario.formatDay "R1"
          "2020-01-01" TimelineScenario.availability))
  = [SingleRoomTimeline.mkCandidate "09:00-10:00" (Some false)].
Proof. reflexivity. Qed.


(** * Properties of the confirmation dialog *)

Lemma checkboxes_app (f1 f2 : list ConfirmationDialog.Element) :
  ConfirmationDialog.checkboxes (f1 ++ f2)
  = (ConfirmationDialog.checkboxes f1 + ConfirmationDialog.checkboxes f2)%nat.
Proof.
  unfold ConfirmationDialog.checkboxes. now rewrite List.filter_app, length_app.
Qed.

Lemma checkboxes_hidden {A : Type}
    (mk : A -> string * string) (l : list A) :
  ConfirmationDialog.checkboxes
    (map (fun x => ConfirmationDialog.HiddenInput (fst (mk x)) (snd (mk x))) l) = O.
Proof. induction l as [|x r IH]; simpl; [reflexivity|exact IH]. Qed.

Lemma submitButtons_hidden {A : Type}
    (mk : A -> string * string) (l : list A) :
  ConfirmationDialog.submitButtons
    (map (fun x => ConfirmationDialog.HiddenInput (fst (mk x)) (snd (mk x))) l) = [].
Proof. induction l as [|x r IH]; simpl; [reflexivity|exact IH]. Qed.

(** X21: the dialog has one submit button, and it starts disabled exactly
    when the dialog carries a confirmation checkbox, on its own or as the
    footer of the message box; there is never more than one checkbox,
    whatever the message, the ids and the extra inputs. *)
Theorem submit_disabled_iff_checkbox (caller csrf_token : string)
    (gettext : string -> string) (a : ConfirmationDialog.Args) :
  let form := ConfirmationDialog.confirmation_dialog caller csrf_token gettext a in
  ConfirmationDialog.submitButtons form = [ConfirmationDialog.extra_confirmation a]
  /\ ConfirmationDialog.checkboxes form
     = (if ConfirmationDialog.extra_confirmation a then 1%nat else O).
Proof.
  intros form. unfold form, ConfirmationDialog.confirmation_dialog.
  split.
  - unfold ConfirmationDialog.submitButtons. rewrite !flat_map_app.
    fold (ConfirmationDialog.submitButtons
            (map (ConfirmationDialog.HiddenInput (ConfirmationDialog.id_field_name a))
                 (ConfirmationDialog.ids a))).
    fold (ConfirmationDialog.submitButtons
            (map (fun input => ConfirmationDialog.HiddenInput (fst input) (snd input))
                 (ConfirmationDialog.extra_inputs a))).
    rewrite (submitButtons_hidden (fun i => (ConfirmationDialog.id_field_name a, i))).
    rewrite (submitButtons_hidden (fun i => i)).
    destruct (JS.truthy (ConfirmationDialog.message a));
      [|destruct (ConfirmationDialog.extra_confirmation a)]; reflexivity.
  - rewrite !checkboxes_app.
    rewrite (checkboxes_hidden (fun i => (ConfirmationDialog.id_field_name a, i))).
    rewrite (checkboxes_hidden (fun i => i)).
    destruct (JS.truthy (ConfirmationDialog.message a));
      destruct (ConfirmationDialog.extra_confirmation a); reflexivity.
Qed.

Lemma hiddenInputs_app (f1 f2 : list ConfirmationDialog.Element) :
  ConfirmationDialog.hiddenInputs (f1 ++ f2)
  = ConfirmationDialog.hiddenInputs f1 ++ ConfirmationDialog.hiddenInputs f2.
Proof. apply flat_map_app. Qed.

Lemma hiddenInputs_hidden {A : Type} (mk : A -> string * string) (l : list A) :
  ConfirmationDialog.hiddenInputs
    (map (fun x => ConfirmationDialog.HiddenInput (fst (mk x)) (snd (mk x))) l)
  = map mk l.
Proof.
  induction l as [|x r IH]; simpl; [reflexivity|].
  rewrite IH. now destruct (mk x).
Qed.

(** X22: the hidden inputs of the dialog are the CSRF token first, then one
    input per id under the name of the id field, in order, then the extra
    inputs as given; content, message and buttons add none. *)
Theorem dialog_posts_token_ids_extras (caller csrf_token : string)
    (gettext : string -> string) (a : ConfirmationDialog.Args) :
  ConfirmationDialog.hiddenInputs
    (ConfirmationDialog.confirmation_dialog caller csrf_token gettext a)
  = ("csrf_token", csrf_token)
      :: map (fun i => (ConfirmationDialog.id_field_name a, i))
             (ConfirmationDialog.ids a)
      ++ ConfirmationDialog.extra_inputs a.
Proof.
  unfold ConfirmationDialog.confirmation_dialog.
  rewrite !hiddenInputs_app.
  rewrite (hiddenInputs_hidden (fun i => (ConfirmationDialog.id_field_name a, i))).
  rewrite (hiddenInputs_hidden (fun i => i)), map_id.
  destruct (JS.truthy (ConfirmationDialog.message a));
    [|destruct (ConfirmationDialog.extra_confirmation a)]; reflexivity.
Qed.

Example update_with_new_range_calls_nothing :
  DateNavigator.componentDidUpdate DayMoment.toMoment DayMoment.startOf
    DayMoment.isSame
    (DateNavigator.mkProps "2020-01-02" "weeks" ["2020-01-01"])
    (DateNavigator.mkProps "2020-01-02" "weeks" ["2020-01-01"; "2020-01-02"])
  = [].
Proof. reflexivity. Qed.
